(** * Meet mute extension: background service worker and content script

    A shallow embedding of the two scripts of the extension:

    - [Background]: js/background.js, the service worker that keeps the
      registry of connected Meet tabs ([activeMeetTabs]), the aggregate
      state ([globalMuteState]), the badge and the toggle sequence;
    - [Content]: ext/js/meetmute.js, the per-tab script that watches the
      mute button of the page and answers toggle commands.

    Both scripts are single-threaded and event driven.  Each listener,
    timer callback and promise continuation of the source is one
    transition of the embedding; a callback the source passes to
    [setTimeout], [await] or [.then]/[.catch] is a constructor of the
    continuation type [Cont] of its module, and the platform resumes it
    with a later event.  Calls into the platform are recorded, in order,
    in the [trace] of the state. *)

From Stdlib Require Import ZArith String Bool List Lia.
Import ListNotations.
Open Scope Z_scope.
Open Scope string_scope.
Open Scope list_scope.

Notation "s |> f" := (f s) (at level 45, left associativity, only parsing).

(** ** JavaScript values *)

Module Js.

(** The values that travel in messages and in storage. *)
Inductive jsval : Type :=
| JUndefined
| JNull
| JBool (b : bool)
| JNum (z : Z)
| JStr (s : string).

(** ToBoolean: what [if (v)] and [!v] test. *)
Definition truthy (v : jsval) : bool :=
  match v with
  | JUndefined | JNull => false
  | JBool b => b
  | JNum z => negb (z =? 0)%Z
  | JStr s => negb (s =? "")
  end.

(** [v === "lit"] for a string literal. *)
Definition is_str (v : jsval) (lit : string) : bool :=
  match v with
  | JStr s => s =? lit
  | _ => false
  end.

(** A command sent from the background to a tab:
    [{ action: ..., muted: ... }]. *)
Record Request : Type := mkRequest {
  action : jsval;
  muted : jsval
}.

(** A report sent from a tab to the background:
    [{ message: ..., finalState: ... }]; a field the object does not
    carry reads as [JUndefined]. *)
Record TabMessage : Type := mkTabMessage {
  message : string;
  finalState : jsval
}.

End Js.
Import Js.

(** ** The background service worker (js/background.js) *)

Module Background.

(** A channel as the background sees it: [port.name],
    [port.sender.tab.id] (absent when the sender is not a tab) and the
    identity of the port object. *)
Record Port : Type := mkPort {
  port_name : string;
  port_sender_tab : option Z;
  port_id : nat
}.

Record GlobalMuteState : Type := mkGlobal {
  isMuted : bool;
  hasMeetTab : bool
}.

(** What [chrome.action] currently shows for all tabs. *)
Record Badge : Type := mkBadge {
  badge_text : string;
  badge_color : string;
  badge_title : string
}.

(** Callbacks the source hands to the platform.  *)
Inductive Cont : Type :=
| AfterGet (fromIconClick : bool)
    (* simpleToggleMute, after [await chrome.storage.local.get] *)
| AfterSet (fromIconClick newMutedState : bool)
    (* simpleToggleMute, after [await chrome.storage.local.set] *)
| Verification
    (* simpleToggleMute, the [setTimeout] callback *)
| AfterVerificationGet
    (* the [await] inside that callback *)
| ClearWarning
    (* action.onClicked, the [setTimeout] callback *)
| FallbackThen (m : Request)
    (* sendMessageToContentScript, [.then]/[.catch] of tabs.query *)
| SendCatch (tabId : Z).
    (* sendMessageToContentScript, [.catch] of tabs.sendMessage *)

(** Calls into the platform, as they appear in the trace. *)
Inductive Effect : Type :=
| SetBadgeText (text : string)
| SetBadgeBackgroundColor (color : string)
| SetTitle (tabId : option Z) (title : string)
| StorageGet (key : string) (k : Cont)
| StorageSet (key : string) (v : jsval) (k : option Cont)
| PostMessage (p : Port) (m : Request)
| TabsQuery (url : string) (k : Cont)
| TabsSendMessage (tabId : Z) (m : Request) (k : Cont)
| SendResponse
| SetTimeout (k : Cont) (delay : Z)
| ConsoleError (what : string).

(** The module-level variables of the script together with the platform
    state it reads back ([chrome.storage.local] under the key "muted",
    [JUndefined] when absent, and the badge). *)
Record BG : Type := mkBG {
  activeMeetTabs : list (Z * Port);
  globalMuteState : GlobalMuteState;
  storage_muted : jsval;
  badge : Badge;
  trace : list Effect
}.

(** The script as loaded: an empty registry and a cleared aggregate
    state; storage and badge are whatever the platform kept. *)
Definition start (stored : jsval) (b : Badge) : BG :=
  mkBG [] (mkGlobal false false) stored b [].

(** *** Field updates *)

Definition set_tabs (m : list (Z * Port)) (s : BG) : BG :=
  mkBG m (globalMuteState s) (storage_muted s) (badge s) (trace s).

Definition set_isMuted (b : bool) (s : BG) : BG :=
  mkBG (activeMeetTabs s) (mkGlobal b (hasMeetTab (globalMuteState s)))
       (storage_muted s) (badge s) (trace s).

Definition set_hasMeetTab (b : bool) (s : BG) : BG :=
  mkBG (activeMeetTabs s) (mkGlobal (isMuted (globalMuteState s)) b)
       (storage_muted s) (badge s) (trace s).

Definition set_storage (v : jsval) (s : BG) : BG :=
  mkBG (activeMeetTabs s) (globalMuteState s) v (badge s) (trace s).

Definition set_badge (b : Badge) (s : BG) : BG :=
  mkBG (activeMeetTabs s) (globalMuteState s) (storage_muted s) b (trace s).

Definition emit (e : Effect) (s : BG) : BG :=
  mkBG (activeMeetTabs s) (globalMuteState s) (storage_muted s) (badge s)
       (trace s ++ [e]).

(** *** The JS [Map] behind [activeMeetTabs]

    Entries are kept in insertion order; [set] on a present key
    replaces the value in place. *)

Fixpoint map_set (k : Z) (v : Port) (m : list (Z * Port)) : list (Z * Port) :=
  match m with
  | [] => [(k, v)]
  | (k', v') :: rest =>
      if (k' =? k)%Z then (k, v) :: rest else (k', v') :: map_set k v rest
  end.

Definition map_delete (k : Z) (m : list (Z * Port)) : list (Z * Port) :=
  filter (fun e => negb (fst e =? k)%Z) m.

Definition map_has (k : Z) (m : list (Z * Port)) : bool :=
  existsb (fun e => (fst e =? k)%Z) m.

Definition map_size (m : list (Z * Port)) : Z := Z.of_nat (length m).

(** *** Badge *)

Definition disconnected_badge : Badge := mkBadge "" "#666666" "Disconnected".
Definition warning_badge : Badge := mkBadge "!" "#FFC107" "No active Meet tabs".
Definition muted_badge : Badge := mkBadge "M" "#F44336" "Meet: Muted".
Definition unmuted_badge : Badge := mkBadge "U" "#4CAF50" "Meet: Unmuted".

(** The three platform calls of [setGlobalBadge]. *)
Definition paint (b : Badge) : list Effect :=
  [SetBadgeText (badge_text b);
   SetBadgeBackgroundColor (badge_color b);
   SetTitle None (badge_title b)].

(** setGlobalBadge(text, color, title), lines 152-163. *)
Definition setGlobalBadge (text color title : string) (s : BG) : BG :=
  s |> set_badge (mkBadge text (badge_color (badge s)) (badge_title (badge s)))
    |> emit (SetBadgeText text)
    |> (fun s => set_badge (mkBadge (badge_text (badge s)) color
                                    (badge_title (badge s))) s)
    |> emit (SetBadgeBackgroundColor color)
    |> (fun s => set_badge (mkBadge (badge_text (badge s))
                                    (badge_color (badge s)) title) s)
    |> emit (SetTitle None title).

(** updateAllTabsBadge(), lines 216-234. *)
Definition updateAllTabsBadge (s : BG) : BG :=
  if hasMeetTab (globalMuteState s) then
    let badgeText := if isMuted (globalMuteState s) then "M" else "U" in
    let badgeColor :=
      if isMuted (globalMuteState s) then "#F44336" else "#4CAF50" in
    let title :=
      if isMuted (globalMuteState s) then "Meet: Muted" else "Meet: Unmuted" in
    setGlobalBadge badgeText badgeColor title s
  else
    setGlobalBadge "" "#666666" "Disconnected" s.

(** updateGlobalMuteState(isMuted), lines 237-245.  No listener calls
    it.  ([lastUpdateTime] is written and never read.) *)
Definition updateGlobalMuteState (b : bool) (s : BG) : BG :=
  s |> set_isMuted b |> set_hasMeetTab true |> updateAllTabsBadge.

(** *** Broadcast: sendMessageToContentScript, lines 248-285 *)

Section WithPlatform.

(** Whether [port.postMessage] throws on a given port when it is
    called (it does on a port the other end has closed). *)
Variable post_throws : Port -> bool.

(** The [for ... of activeMeetTabs.entries()] loop.  Only the entry
    being visited is ever deleted, so the iterator sees every entry
    that was in the map when the loop began. *)
Fixpoint post_loop (m : Request) (entries : list (Z * Port)) (s : BG) : BG :=
  match entries with
  | [] => s
  | (tabId, port) :: rest =>
      let s1 := emit (PostMessage port m) s in
      let s2 :=
        if post_throws port then
          s1 |> emit (ConsoleError "Error posting message to tab")
             |> (fun s => set_tabs (map_delete tabId (activeMeetTabs s)) s)
        else s1 in
      post_loop m rest s2
  end.

Definition meet_url : string := "https://meet.google.com/*".

Definition sendMessageToContentScript (m : Request) (s : BG) : BG :=
  if (map_size (activeMeetTabs s) >? 0)%Z then
    post_loop m (activeMeetTabs s) s
  else
    emit (TabsQuery meet_url (FallbackThen m)) s.

(** The [.then] callback of the fallback query, lines 268-281. *)
Definition fallback_then (m : Request) (tabs : list Z) (s : BG) : BG :=
  if (Z.of_nat (length tabs) =? 0)%Z then s
  else
    fold_left (fun s tab => emit (TabsSendMessage tab m (SendCatch tab)) s)
              tabs s.

(** *** Toggle sequence: simpleToggleMute, lines 166-212 *)

(** Up to the first [await]. *)
Definition simpleToggleMute (fromIconClick : bool) (s : BG) : BG :=
  emit (StorageGet "muted" (AfterGet fromIconClick)) s.

(** Lines 170-176: [result] is what the read resolved with. *)
Definition simpleToggleMute_after_get
           (fromIconClick : bool) (result_muted : jsval) (s : BG) : BG :=
  let isMuted := result_muted in
  let newMutedState := negb (truthy isMuted) in
  emit (StorageSet "muted" (JBool newMutedState)
                   (Some (AfterSet fromIconClick newMutedState))) s.

(** Lines 178-207, once the write has resolved. *)
Definition simpleToggleMute_after_set
           (fromIconClick newMutedState : bool) (s : BG) : BG :=
  let s1 :=
    if negb fromIconClick then
      if newMutedState then setGlobalBadge "M" "#F44336" "Meet: Muted" s
      else setGlobalBadge "U" "#4CAF50" "Meet: Unmuted" s
    else s in
  let s2 :=
    sendMessageToContentScript
      (mkRequest (JStr "toggleMute") (JBool newMutedState)) s1 in
  let verificationDelay := if fromIconClick then 300 else 500 in
  emit (SetTimeout Verification verificationDelay) s2.

(** The [catch] of simpleToggleMute, lines 209-211. *)
Definition simpleToggleMute_catch (s : BG) : BG :=
  emit (ConsoleError "Error in simpleToggleMute:") s.

(** The timer callback, lines 197-207. *)
Definition verification (s : BG) : BG :=
  emit (StorageGet "muted" AfterVerificationGet) s.

Definition verification_after_get (checkResult_muted : jsval) (s : BG) : BG :=
  if truthy checkResult_muted then
    setGlobalBadge "M" "#F44336" "Meet: Muted" s
  else
    setGlobalBadge "U" "#4CAF50" "Meet: Unmuted" s.

(** *** Listeners *)

(** chrome.tabs.onRemoved, lines 16-28. *)
Definition onRemoved (tabId : Z) (s : BG) : BG :=
  if map_has tabId (activeMeetTabs s) then
    let s1 := set_tabs (map_delete tabId (activeMeetTabs s)) s in
    if (map_size (activeMeetTabs s1) =? 0)%Z then
      s1 |> set_hasMeetTab false
         |> setGlobalBadge "" "#666666" "Disconnected"
    else s1
  else s.

(** chrome.runtime.onInstalled, lines 31-38. *)
Definition onInstalled (s : BG) : BG :=
  s |> emit (StorageSet "muted" (JBool false) None)
    |> (fun s => set_badge (mkBadge (badge_text (badge s)) "#666666"
                                    (badge_title (badge s))) s)
    |> emit (SetBadgeBackgroundColor "#666666").

Definition connection_name : string := "meetmute-connection".

(** chrome.runtime.onConnect, lines 41-52: the part that runs at once.
    Reading [port.sender.tab.id] of a sender that is not a tab throws
    and ends the listener there. *)
Definition onConnect (port : Port) (s : BG) : BG :=
  if port_name port =? connection_name then
    match port_sender_tab port with
    | None => s
    | Some tabId =>
        s |> set_tabs (map_set tabId port (activeMeetTabs s))
          |> emit (SetTitle (Some tabId) "Connected to Meet")
    end
  else s.

(** port.onDisconnect, lines 54-64, for the [tabId] it closed over. *)
Definition port_onDisconnect (tabId : Z) (s : BG) : BG :=
  let s1 := set_tabs (map_delete tabId (activeMeetTabs s)) s in
  if (map_size (activeMeetTabs s1) =? 0)%Z then
    s1 |> set_hasMeetTab false
       |> setGlobalBadge "" "#666666" "Disconnected"
  else s1.

(** port.onMessage, lines 67-94. *)
Definition port_onMessage (msg : TabMessage) (s : BG) : BG :=
  if message msg =? "muted" then
    if truthy (finalState msg) then
      s |> set_isMuted true |> set_hasMeetTab true |> updateAllTabsBadge
    else s
  else if message msg =? "unmuted" then
    if truthy (finalState msg) then
      s |> set_isMuted false |> set_hasMeetTab true |> updateAllTabsBadge
    else s
  else if message msg =? "disconnected" then
    if (map_size (activeMeetTabs s) <=? 1)%Z then
      s |> set_hasMeetTab false |> updateAllTabsBadge
    else s
  else s.

(** chrome.runtime.onMessage, lines 99-119; [sender_tab] is
    [sender.tab]. *)
Definition runtime_onMessage
           (msg : TabMessage) (sender_tab : option Z) (s : BG) : BG :=
  match sender_tab with
  | Some _ =>
      if message msg =? "content_script_loaded" then
        emit SendResponse s
      else if (message msg =? "muted") || (message msg =? "unmuted") then
        let s1 :=
          if truthy (finalState msg) then
            s |> set_isMuted (message msg =? "muted")
              |> set_hasMeetTab true
              |> updateAllTabsBadge
          else s in
        emit SendResponse s1
      else s
  | None => s
  end.

(** chrome.commands.onCommand, lines 122-127. *)
Definition onCommand (command : string) (s : BG) : BG :=
  if command =? "toggle_mute" then simpleToggleMute true s else s.

(** chrome.action.onClicked, lines 130-148. *)
Definition onClicked (tab : Z) (s : BG) : BG :=
  if (map_size (activeMeetTabs s) =? 0)%Z then
    s |> setGlobalBadge "!" "#FFC107" "No active Meet tabs"
      |> emit (SetTimeout ClearWarning 3000)
  else
    simpleToggleMute true s.

(** The callback of that timer, lines 139-141. *)
Definition clear_warning (s : BG) : BG :=
  setGlobalBadge "" "#666666" "Disconnected" s.

(** *** The event loop *)

Inductive Event : Type :=
| TabRemoved (tabId : Z)
| Installed
| Connect (port : Port)
| PortDisconnect (port : Port)
| PortMessage (port : Port) (msg : TabMessage)
| RuntimeMessage (msg : TabMessage) (sender_tab : option Z)
| Command (command : string)
| ActionClicked (tab : Z)
| TimerFired (k : Cont)
| StorageGetDone (k : Cont)
    (* a read resolves with the stored value *)
| StorageSetDone (v : jsval) (k : option Cont)
    (* a write of [v] is done and resolves *)
| TabsQueryDone (tabs : list Z) (k : Cont)
| PromiseRejected (k : Cont).

(** The listeners of a port exist once [onConnect] has got past its
    name test and the read of the tab id. *)
Definition port_listener_tab (port : Port) : option Z :=
  if port_name port =? connection_name then port_sender_tab port else None.

(** One turn of the event loop.  A read of the storage resolves with
    the value stored at that moment; a write takes effect when it
    resolves; a rejected promise runs the [catch] that guards it, if
    there is one. *)
Definition handle (e : Event) (s : BG) : BG :=
  match e with
  | TabRemoved tabId => onRemoved tabId s
  | Installed => onInstalled s
  | Connect port => onConnect port s
  | PortDisconnect port =>
      match port_listener_tab port with
      | Some tabId => port_onDisconnect tabId s
      | None => s
      end
  | PortMessage port msg =>
      match port_listener_tab port with
      | Some _ => port_onMessage msg s
      | None => s
      end
  | RuntimeMessage msg sender_tab => runtime_onMessage msg sender_tab s
  | Command command => onCommand command s
  | ActionClicked tab => onClicked tab s
  | TimerFired Verification => verification s
  | TimerFired ClearWarning => clear_warning s
  | TimerFired _ => s
  | StorageGetDone (AfterGet fromIconClick) =>
      simpleToggleMute_after_get fromIconClick (storage_muted s) s
  | StorageGetDone AfterVerificationGet =>
      verification_after_get (storage_muted s) s
  | StorageGetDone _ => s
  | StorageSetDone v k =>
      let s1 := set_storage v s in
      match k with
      | Some (AfterSet fromIconClick newMutedState) =>
          simpleToggleMute_after_set fromIconClick newMutedState s1
      | _ => s1
      end
  | TabsQueryDone tabs (FallbackThen m) => fallback_then m tabs s
  | TabsQueryDone _ _ => s
  | PromiseRejected (AfterGet _) => simpleToggleMute_catch s
  | PromiseRejected (AfterSet _ _) => simpleToggleMute_catch s
  | PromiseRejected (FallbackThen _) =>
      emit (ConsoleError "Error querying tabs:") s
  | PromiseRejected (SendCatch _) =>
      emit (ConsoleError "Error sending message to tab") s
  | PromiseRejected _ => s
  end.

Definition run (es : list Event) (s : BG) : BG :=
  fold_left (fun s e => handle e s) es s.

End WithPlatform.

End Background.

(** ** The content script (ext/js/meetmute.js) *)

Module Content.

(** The element [document.querySelector(MUTE_BUTTON)] finds: the
    selector asks for a [data-is-muted] attribute, so a match has one. *)
Record Button : Type := mkButton {
  button_id : nat;
  data_is_muted : string
}.

(** The page at the moment a callback runs: the match of MUTE_BUTTON,
    or none. *)
Definition Dom : Type := option Button.

Inductive PortObj : Type :=
| PortTo (name : string).

(** Callbacks handed to [setTimeout] and to promises. *)
Inductive Cont : Type :=
| QuickCheck
    (* handleMessage, the outer [setTimeout] callback *)
| FinalCheck (quickCheckState : bool)
    (* handleMessage, the inner [setTimeout] callback *)
| WaitPoll (timeout : Z) (settled : bool)
    (* waitUntilElementExists: the next [waitForContainerElement] of a
       promise whose counter is [timeout]; [settled] once it was
       rejected *)
| Reconnect
    (* port.onDisconnect: [setTimeout(connectToBackgroundScript, 1000)] *)
| LoadedCatch
    (* connectToBackgroundScript, [.catch] of the initial sendMessage *)
| SendCatch.
    (* sendMessageToBackground, [.catch] of sendMessage *)

(** What [handleMessage] returns. *)
Inductive Response : Type :=
| StateResponse (message : string) (success : bool)
| NotFoundResponse
| ErrorResponse.

Inductive Effect : Type :=
| RuntimeConnect (name : string)
| PortPostMessage (m : TabMessage)
    (* a [port.postMessage] that returned *)
| RuntimeSendMessage (m : TabMessage) (k : option Cont)
| DispatchKeydown
    (* document.dispatchEvent(keydownEvent) *)
| ObserverDisconnect (observed : nat)
| ObserverObserve (observed : nat)
| ObserveBodyClass
| SetTimeout (k : Cont) (delay : Z)
| SendResponse (r : Response)
| ConsoleError (what : string).

(** The module-level variables of the script. *)
Record CS : Type := mkCS {
  muted : bool;
  port : option PortObj;
  isMutedObserver : option nat;
  waitingForMuteButton : bool;
  trace : list Effect
}.

Definition start : CS := mkCS false None None false [].

Definition set_muted (b : bool) (cs : CS) : CS :=
  mkCS b (port cs) (isMutedObserver cs) (waitingForMuteButton cs) (trace cs).

Definition set_port (p : option PortObj) (cs : CS) : CS :=
  mkCS (muted cs) p (isMutedObserver cs) (waitingForMuteButton cs) (trace cs).

Definition set_observer (o : option nat) (cs : CS) : CS :=
  mkCS (muted cs) (port cs) o (waitingForMuteButton cs) (trace cs).

Definition set_waiting (b : bool) (cs : CS) : CS :=
  mkCS (muted cs) (port cs) (isMutedObserver cs) b (trace cs).

Definition emit (e : Effect) (cs : CS) : CS :=
  mkCS (muted cs) (port cs) (isMutedObserver cs) (waitingForMuteButton cs)
       (trace cs ++ [e]).

(** The confirmed report [updateMuted] sends for a value. *)
Definition final_report (v : bool) : TabMessage :=
  mkTabMessage (if v then "muted" else "unmuted") (JBool true).

Definition MAX_TIME : Z := 5000.

Section WithPlatform.

(** Whether [port.postMessage] throws when called, and whether
    [chrome.runtime.connect] does. *)
Variable post_throws : bool.
Variable connect_throws : bool.

(** isMuted(), lines 88-93; [None] is the TypeError of
    [null.getAttribute]. *)
Definition isMuted (dom : Dom) : option bool :=
  match dom with
  | Some button => Some (data_is_muted button =? "true")
  | None => None
  end.

(** sendMessageToBackground(message), lines 114-130. *)
Definition sendMessageToBackground (m : TabMessage) (cs : CS) : CS :=
  match port cs with
  | Some _ =>
      if post_throws then
        cs |> emit (ConsoleError "Error posting message via port:")
           |> emit (RuntimeSendMessage m (Some SendCatch))
      else
        emit (PortPostMessage m) cs
  | None => emit (RuntimeSendMessage m (Some SendCatch)) cs
  end.

(** updateMuted(newValue), lines 95-111; [None] is a call without
    argument. *)
Definition updateMuted (newValue : option bool) (dom : Dom) (cs : CS) : CS :=
  match dom with
  | Some _ =>
      let value :=
        match newValue with
        | Some v => Some v
        | None => isMuted dom
        end in
      match value with
      | Some v => cs |> set_muted v |> sendMessageToBackground (final_report v)
      | None => emit (ConsoleError "Error updating mute state:") cs
      end
  | None => cs
  end.

(** watchIsMuted(el), lines 132-147. *)
Definition watchIsMuted (el : Button) (cs : CS) : CS :=
  let cs1 :=
    match isMutedObserver cs with
    | Some o => emit (ObserverDisconnect o) cs
    | None => cs
    end in
  cs1 |> set_observer (Some (button_id el))
      |> emit (ObserverObserve (button_id el)).

(** The callback of that observer; [attr] is what
    [mutations[0].target.getAttribute("data-is-muted")] returns. *)
Definition isMuted_observer (attr : option string) (dom : Dom) (cs : CS) : CS :=
  let newValue :=
    match attr with
    | Some a => a =? "true"
    | None => false
    end in
  if negb (Bool.eqb newValue (muted cs)) then updateMuted (Some newValue) dom cs
  else cs.

(** The [.then] and [.catch] callbacks of waitForMuteButton,
    lines 74-85. *)
Definition wait_then (el : Button) (dom : Dom) (cs : CS) : CS :=
  cs |> set_waiting false
     |> updateMuted None dom
     |> watchIsMuted el
     |> sendMessageToBackground (mkTabMessage "mute_button_found" JUndefined).

Definition wait_catch (cs : CS) : CS :=
  cs |> sendMessageToBackground (mkTabMessage "disconnected" JUndefined)
     |> set_waiting false.

(** waitForContainerElement, lines 50-61, followed by the reaction of
    the promise when this call settles it.  A rejection does not stop
    the polling; a promise settles once. *)
Definition waitForContainerElement
           (timeout : Z) (settled : bool) (dom : Dom) (cs : CS) : CS :=
  let timeout := timeout + 100 in
  let rejects := (timeout >=? MAX_TIME)%Z in
  let cs1 :=
    match dom with
    | None => emit (SetTimeout (WaitPoll timeout (settled || rejects)) 100) cs
    | Some _ => cs
    end in
  if settled then cs1
  else if rejects then wait_catch cs1
  else
    match dom with
    | Some container => wait_then container dom cs1
    | None => cs1
    end.

(** waitUntilElementExists(MUTE_BUTTON) with the callbacks
    waitForMuteButton chains on it: a fresh counter, a pending promise,
    and the first poll made at once. *)
Definition waitUntilElementExists (dom : Dom) (cs : CS) : CS :=
  waitForContainerElement 0 false dom cs.

(** waitForMuteButton(), lines 68-86. *)
Definition waitForMuteButton (dom : Dom) (cs : CS) : CS :=
  if waitingForMuteButton cs then cs
  else cs |> set_waiting true |> waitUntilElementExists dom.

(** sendKeyboardCommand(), lines 241-243. *)
Definition sendKeyboardCommand (cs : CS) : CS := emit DispatchKeydown cs.

(** handleMessage(request), lines 170-223; [None] is a request that
    is not an object. *)
Definition handleMessage
           (request : option Request) (dom : Dom) (cs : CS) : CS * Response :=
  match dom with
  | Some _ =>
      match isMuted dom with
      | Some current =>
          let cs1 := set_muted current cs in
          let is_toggle :=
            match request with
            | Some r => is_str (action r) "toggleMute"
            | None => false
            end in
          let cs2 :=
            if is_toggle then
              cs1 |> set_muted (negb (muted cs1))
                  |> sendKeyboardCommand
                  |> emit (SetTimeout QuickCheck 50)
            else cs1 in
          (cs2, StateResponse (if muted cs2 then "muted" else "unmuted") true)
      | None =>
          (emit (ConsoleError "Error handling message:") cs, ErrorResponse)
      end
  | None => (waitForMuteButton dom cs, NotFoundResponse)
  end.

(** The two timer callbacks of the toggle, lines 191-209.  An
    exception of [isMuted] ends the callback. *)
Definition quick_check (dom : Dom) (cs : CS) : CS :=
  match isMuted dom with
  | Some quickCheckState => emit (SetTimeout (FinalCheck quickCheckState) 200) cs
  | None => cs
  end.

Definition final_check (quickCheckState : bool) (dom : Dom) (cs : CS) : CS :=
  match isMuted dom with
  | Some finalState => updateMuted (Some finalState) dom cs
  | None => cs
  end.

(** connectToBackgroundScript(), lines 10-42. *)
Definition connectToBackgroundScript (cs : CS) : CS :=
  if connect_throws then
    cs |> emit (RuntimeConnect "meetmute-connection")
       |> emit (ConsoleError "Error connecting to background script:")
  else
    cs |> emit (RuntimeConnect "meetmute-connection")
       |> set_port (Some (PortTo "meetmute-connection"))
       |> emit (RuntimeSendMessage
                  (mkTabMessage "content_script_loaded" JUndefined)
                  (Some LoadedCatch)).

(** port.onDisconnect, lines 22-31. *)
Definition port_onDisconnect (lastError : bool) (cs : CS) : CS :=
  let cs1 := set_port None cs in
  if lastError then emit (SetTimeout Reconnect 1000) cs1 else cs1.

(** watchBodyClass(), lines 149-161. *)
Definition watchBodyClass (cs : CS) : CS := emit ObserveBodyClass cs.

(** The callback of the body observer, lines 150-155. *)
Definition body_observer (oldValue newClass : option string)
           (dom : Dom) (cs : CS) : CS :=
  let same :=
    match oldValue, newClass with
    | Some a, Some b => a =? b
    | None, None => true
    | _, _ => false
    end in
  if negb same then waitForMuteButton dom cs else cs.

(** *** The event loop *)

Inductive Event : Type :=
| ScriptLoaded
| PortMessage (request : option Request)
| RuntimeMessage (request : option Request)
| PortDisconnect (lastError : bool)
| AttributeMutated (attr : option string)
| BodyClassMutated (oldValue newClass : option string)
| BeforeUnload
| TimerFired (k : Cont)
| PromiseRejected (k : Cont).

Definition handle (e : Event) (dom : Dom) (cs : CS) : CS :=
  match e with
  | ScriptLoaded => cs |> connectToBackgroundScript |> watchBodyClass
  | PortMessage request => fst (handleMessage request dom cs)
  | RuntimeMessage request =>
      let (cs1, response) := handleMessage request dom cs in
      emit (SendResponse response) cs1
  | PortDisconnect lastError => port_onDisconnect lastError cs
  | AttributeMutated attr => isMuted_observer attr dom cs
  | BodyClassMutated oldValue newClass => body_observer oldValue newClass dom cs
  | BeforeUnload =>
      emit (RuntimeSendMessage (mkTabMessage "disconnected" JUndefined) None) cs
  | TimerFired QuickCheck => quick_check dom cs
  | TimerFired (FinalCheck quickCheckState) => final_check quickCheckState dom cs
  | TimerFired (WaitPoll timeout settled) =>
      waitForContainerElement timeout settled dom cs
  | TimerFired Reconnect => connectToBackgroundScript cs
  | TimerFired _ => cs
  | PromiseRejected LoadedCatch => cs
  | PromiseRejected SendCatch =>
      emit (ConsoleError "Error sending message to background:") cs
  | PromiseRejected _ => cs
  end.

(** Events in order, each with the page as it is when the event is
    handled. *)
Definition run (es : list (Event * Dom)) (cs : CS) : CS :=
  fold_left (fun cs ed => handle (fst ed) (snd ed) cs) es cs.

(** The messages sent to the background, over either transport, in
    order; a [port.postMessage] that threw sent nothing. *)
Definition reports (tr : list Effect) : list TabMessage :=
  flat_map (fun e =>
              match e with
              | PortPostMessage m => [m]
              | RuntimeSendMessage m _ => [m]
              | _ => []
              end) tr.

End WithPlatform.

End Content.

(** ** Properties: vocabulary *)

Import Background.

(** The operations on the registry: a channel connecting, a tab being
    removed, a channel disconnecting. *)
Definition registry_op (e : Event) : bool :=
  match e with
  | Connect _ | TabRemoved _ | PortDisconnect _ => true
  | _ => false
  end.

(** [hasMeetTab] says exactly whether a session is registered. *)
Definition flag_iff_sessions (s : BG) : Prop :=
  hasMeetTab (globalMuteState s) = true <-> activeMeetTabs s <> [].

(** [hasMeetTab] is set only when a session is registered. *)
Definition flag_implies_sessions (s : BG) : Prop :=
  hasMeetTab (globalMuteState s) = true -> activeMeetTabs s <> [].

(** The keys of the registry are distinct, as the keys of a [Map] are. *)
Definition keys_unique (s : BG) : Prop :=
  NoDup (map fst (activeMeetTabs s)).

(** The badge for a mute value. *)
Definition badge_of (m : bool) : Badge :=
  if m then muted_badge else unmuted_badge.

(** What one round of the broadcast loop adds to the trace. *)
Definition post_effects (post_throws : Port -> bool) (m : Request)
           (e : Z * Port) : list Effect :=
  PostMessage (snd e) m ::
  (if post_throws (snd e) then [ConsoleError "Error posting message to tab"]
   else []).

(** What a broadcast adds to the trace. *)
Definition broadcast_effects (post_throws : Port -> bool) (m : Request)
           (tabs : list (Z * Port)) : list Effect :=
  if (map_size tabs >? 0)%Z then flat_map (post_effects post_throws m) tabs
  else [TabsQuery meet_url (FallbackThen m)].

(** The toggle command for a requested value. *)
Definition toggle_command (requested : bool) : Request :=
  mkRequest (JStr "toggleMute") (JBool requested).

(** The effects a handler added to the trace. *)
Definition added (before after : BG) : list Effect :=
  skipn (length (trace before)) (trace after).

Definition is_paint (e : Effect) : bool :=
  match e with
  | SetBadgeText _ => true
  | _ => false
  end.

(** Effects that send something to a tab. *)
Definition is_send (e : Effect) : bool :=
  match e with
  | PostMessage _ _ | TabsSendMessage _ _ _ => true
  | _ => false
  end.

Definition is_query (e : Effect) : bool :=
  match e with
  | TabsQuery _ _ => true
  | _ => false
  end.

(** The platform completes the storage call the script is waiting on. *)
Definition settle (post_throws : Port -> bool) (s : BG) : BG :=
  match last (trace s) SendResponse with
  | StorageGet _ k => handle post_throws (StorageGetDone k) s
  | StorageSet _ v k => handle post_throws (StorageSetDone v k) s
  | _ => s
  end.

(** Where a toggle request comes from. *)
Inductive Origin : Type :=
| IconClick
| KeyboardCommand.

Definition direct_ui_action (o : Origin) : bool :=
  match o with
  | IconClick => true
  | KeyboardCommand => false
  end.

Definition origin_event (o : Origin) : Event :=
  match o with
  | IconClick => ActionClicked 1
  | KeyboardCommand => Command "toggle_mute"
  end.

(** A toggle from its origin up to and including the broadcast. *)
Definition toggle_until_broadcast
           (post_throws : Port -> bool) (o : Origin) (s : BG) : BG :=
  settle post_throws (settle post_throws (handle post_throws (origin_event o) s)).

(** The confirmed report an event carries, if it is one. *)
Definition confirmed_value (msg : TabMessage) : option bool :=
  if truthy (finalState msg) then
    if message msg =? "muted" then Some true
    else if message msg =? "unmuted" then Some false
    else None
  else None.

Definition confirmed_report (e : Event) : option bool :=
  match e with
  | PortMessage port msg =>
      match port_listener_tab port with
      | Some _ => confirmed_value msg
      | None => None
      end
  | RuntimeMessage msg (Some _) => confirmed_value msg
  | _ => None
  end.

(** A registry with one session, and nothing else. *)
Definition meet_port (tabId : Z) (id : nat) : Port :=
  mkPort connection_name (Some tabId) id.

Definition one_session : BG :=
  run (fun _ => false) [Connect (meet_port 7 0)]
      (start (JBool false) disconnected_badge).

Definition disconnected_message : TabMessage :=
  mkTabMessage "disconnected" JUndefined.

Definition two_sessions : BG :=
  run (fun _ => false) [Connect (meet_port 7 0); Connect (meet_port 8 1)]
      (start JUndefined disconnected_badge).

(** The channel of the first port is dead. *)
Definition first_port_dead (p : Port) : bool := Nat.eqb (port_id p) 0.

(** C1 as the specification words it. *)
Definition C1_as_stated (pt : Port -> bool) (es : list Event)
           (stored : jsval) (b : Badge) : Prop :=
  forallb registry_op es = true ->
  flag_iff_sessions (run pt es (start stored b)).

(** C5 as the specification words it: the badge is painted before the
    broadcast exactly when the request is not a direct UI action. *)
Definition optimistic_paint (pt : Port -> bool) (o : Origin) (s : BG) : bool :=
  existsb is_paint (added s (toggle_until_broadcast pt o s)).

Definition C5_as_stated (pt : Port -> bool) (o : Origin) (s : BG) : Prop :=
  activeMeetTabs s <> [] ->
  optimistic_paint pt o s = negb (direct_ui_action o).

(** C6 as the specification words it. *)
Definition C6_as_stated (pt : Port -> bool) (port : Port) (tabId : Z)
           (s : BG) : Prop :=
  port_listener_tab port = Some tabId ->
  map_has tabId (activeMeetTabs s) = true ->
  let s' := handle pt (PortMessage port disconnected_message) s in
  map_has tabId (activeMeetTabs s') = false /\
  (if (map_size (activeMeetTabs s) <=? 1)%Z
   then hasMeetTab (globalMuteState s') = false /\ badge s' = disconnected_badge
   else globalMuteState s' = globalMuteState s).

(** The icon click with no session, and its timer. *)
Definition warning_scenario (pt : Port -> bool) (tab : Z) (s : BG) : BG :=
  run pt [ActionClicked tab; TimerFired ClearWarning] s.

(** C9 as the specification words it. *)
Definition C9_as_stated (pt : Port -> bool) (tab : Z) (s : BG) : Prop :=
  activeMeetTabs s = [] ->
  let s1 := handle pt (ActionClicked tab) s in
  let s2 := warning_scenario pt tab s in
  badge s1 = warning_badge /\
  badge s2 = disconnected_badge /\
  existsb is_send (added s s2) = false /\
  existsb is_query (added s s2) = true /\
  globalMuteState s2 = globalMuteState s.

(** The steps of the toggle sequence. *)
Definition toggle_step (e : Event) : bool :=
  match e with
  | Command _ | ActionClicked _ => true
  | StorageGetDone _ | StorageSetDone _ _ => true
  | TimerFired _ | TabsQueryDone _ _ | PromiseRejected _ => true
  | _ => false
  end.

(** One toggle with nothing interleaved: the sequence from its call to
    the repaint of its timer. *)
Definition toggle_once (pt : Port -> bool) (fromIconClick : bool) (s : BG) : BG :=
  settle pt (handle pt (TimerFired Verification)
               (settle pt (settle pt (simpleToggleMute fromIconClick s)))).

(** Effects that log an error. *)
Definition is_error (e : Effect) : bool :=
  match e with
  | ConsoleError _ => true
  | _ => false
  end.

(** A port that passes the tests of [onConnect]. *)
Definition accepted (port : Port) : Prop :=
  exists tabId, port_listener_tab port = Some tabId.

(** [n] polls in a row that find no button, each one the callback the
    previous one handed to [setTimeout]. *)
Fixpoint polls_absent (post_throws : bool) (n : nat) (timeout : Z)
         (settled : bool) (cs : Content.CS) : Content.CS :=
  match n with
  | O => cs
  | S n' =>
      polls_absent post_throws n' (timeout + 100)
        (settled || (timeout + 100 >=? Content.MAX_TIME)%Z)
        (Content.waitForContainerElement post_throws timeout settled None cs)
  end.

(** The notice the content script sends when it gives up or unloads. *)
Definition disconnected_notice : TabMessage :=
  mkTabMessage "disconnected" JUndefined.

(** A session that has connected and confirmed that it is muted. *)
Definition confirmed_session : BG :=
  run (fun _ => false)
      [Connect (meet_port 7 0);
       PortMessage (meet_port 7 0) (mkTabMessage "muted" (JBool true))]
      (start JUndefined disconnected_badge).

(** The delay of a verification timer, if the effect sets one. *)
Definition verification_delay (e : Effect) : list Z :=
  match e with
  | SetTimeout Verification delay => [delay]
  | _ => []
  end.

(** The delays of the verification timers a handler set. *)
Definition verification_delays (before after : BG) : list Z :=
  flat_map verification_delay (added before after).

(** C7 as the specification words it, in its clause on the delay: a
    toggle from a direct UI action waits less than a toggle from any
    other origin. *)
Definition C7_as_stated (pt : Port -> bool) (s : BG) : Prop :=
  activeMeetTabs s <> [] ->
  forall direct other,
    direct_ui_action direct = true ->
    direct_ui_action other = false ->
    exists d d',
      verification_delays s (toggle_until_broadcast pt direct s) = [d] /\
      verification_delays s (toggle_until_broadcast pt other s) = [d'] /\
      d < d'.

(** ** Properties of the background *)

(** *** Basic facts *)

Lemma setGlobalBadge_eq text color title s :
  setGlobalBadge text color title s =
  mkBG (activeMeetTabs s) (globalMuteState s) (storage_muted s)
       (mkBadge text color title)
       (trace s ++ paint (mkBadge text color title)).
Proof.
  unfold setGlobalBadge, emit, set_badge, paint; simpl.
  now rewrite <- !app_assoc.
Qed.

Lemma updateAllTabsBadge_eq s :
  updateAllTabsBadge s =
  let b := if hasMeetTab (globalMuteState s)
           then badge_of (isMuted (globalMuteState s))
           else disconnected_badge in
  mkBG (activeMeetTabs s) (globalMuteState s) (storage_muted s) b
       (trace s ++ paint b).
Proof.
  unfold updateAllTabsBadge.
  destruct (hasMeetTab (globalMuteState s)); [destruct (isMuted (globalMuteState s))|];
    now rewrite setGlobalBadge_eq.
Qed.

Lemma map_set_not_nil k v m : map_set k v m <> [].
Proof.
  destruct m as [|[k' v'] rest]; simpl; [discriminate|].
  destruct (k' =? k)%Z; discriminate.
Qed.

Lemma map_size_zero m : (map_size m =? 0)%Z = true <-> m = [].
Proof.
  unfold map_size; rewrite Z.eqb_eq.
  destruct m; simpl; split; intros H; try reflexivity; try discriminate; lia.
Qed.

Lemma map_size_pos m : (map_size m >? 0)%Z = true <-> m <> [].
Proof.
  unfold map_size; rewrite Z.gtb_lt.
  destruct m; simpl; split; intros H; try congruence; try lia; discriminate.
Qed.

Lemma map_delete_absent k m :
  ~ In k (map fst m) -> map_delete k m = m.
Proof.
  unfold map_delete; induction m as [|[k' v'] rest IH]; simpl; intros H.
  - reflexivity.
  - destruct (Z.eqb_spec k' k) as [->|_]; simpl.
    + exfalso; apply H; now left.
    + f_equal; apply IH; intros Hin; apply H; now right.
Qed.

Lemma map_delete_middle k v pre rest :
  NoDup (map fst (pre ++ (k, v) :: rest)) ->
  map_delete k (pre ++ (k, v) :: rest) = pre ++ rest.
Proof.
  intros Hnd.
  rewrite map_app in Hnd; simpl in Hnd.
  pose proof (NoDup_remove_2 _ _ _ Hnd) as Hnot.
  unfold map_delete; rewrite filter_app; simpl.
  rewrite Z.eqb_refl; simpl.
  fold (map_delete k pre); fold (map_delete k rest).
  rewrite !map_delete_absent; auto.
  all: intros Hin; apply Hnot; apply in_or_app; auto.
Qed.

(** *** The registry keeps distinct keys *)

Lemma map_set_keys k v m :
  map fst (map_set k v m) =
  if map_has k m then map fst m else map fst m ++ [k].
Proof.
  unfold map_has; induction m as [|[k' v'] rest IH]; simpl.
  - reflexivity.
  - destruct (Z.eqb_spec k' k) as [->|Hne]; simpl.
    + reflexivity.
    + rewrite IH. now destruct (existsb _ rest).
Qed.

Lemma map_has_In k m : map_has k m = true <-> In k (map fst m).
Proof.
  unfold map_has; rewrite existsb_exists, in_map_iff; split.
  - intros [e [Hin He]]; exists e; split; [now apply Z.eqb_eq|assumption].
  - intros [e [He Hin]]; exists e; split; [assumption|now apply Z.eqb_eq].
Qed.

Lemma map_set_unique k v m :
  NoDup (map fst m) -> NoDup (map fst (map_set k v m)).
Proof.
  intros Hnd; rewrite map_set_keys.
  destruct (map_has k m) eqn:Hhas; [assumption|].
  apply NoDup_app; [assumption|repeat constructor; intros []|].
  intros x Hx [<-|[]].
  apply map_has_In in Hx; congruence.
Qed.

Lemma map_delete_unique k m :
  NoDup (map fst m) -> NoDup (map fst (map_delete k m)).
Proof.
  unfold map_delete; induction m as [|[k' v'] rest IH]; simpl; intros Hnd.
  - constructor.
  - inversion Hnd as [|? ? Hnot Hrest]; subst.
    destruct (k' =? k)%Z; simpl; [now apply IH|].
    constructor; [|now apply IH].
    intros Hin; apply Hnot.
    apply in_map_iff in Hin as [e [He Hin]].
    apply filter_In in Hin as [Hin _].
    apply in_map_iff; now exists e.
Qed.

(** *** The session flag under registry operations *)

Lemma registry_op_keeps_flag_sound pt e s :
  registry_op e = true ->
  flag_implies_sessions s -> flag_implies_sessions (handle pt e s).
Proof.
  unfold flag_implies_sessions.
  destruct e; simpl; try discriminate; intros _ Hs.
  - (* tab removed *)
    unfold onRemoved.
    destruct (map_has tabId (activeMeetTabs s)); [|assumption].
    simpl. destruct (map_size _ =? 0)%Z eqn:Hsize.
    + rewrite setGlobalBadge_eq; simpl; discriminate.
    + simpl; intros _ Hnil.
      apply map_size_zero in Hnil; congruence.
  - (* channel connecting *)
    unfold onConnect.
    destruct (port_name port =? connection_name); [|assumption].
    destruct (port_sender_tab port); [|assumption].
    simpl; intros _; apply map_set_not_nil.
  - (* channel disconnecting *)
    destruct (port_listener_tab port); [|assumption].
    unfold port_onDisconnect; simpl.
    destruct (map_size _ =? 0)%Z eqn:Hsize.
    + rewrite setGlobalBadge_eq; simpl; discriminate.
    + simpl; intros _ Hnil.
      apply map_size_zero in Hnil; congruence.
Qed.

Lemma onConnect_keeps_globalMuteState port s :
  globalMuteState (onConnect port s) = globalMuteState s.
Proof.
  unfold onConnect.
  destruct (port_name port =? connection_name); [|reflexivity].
  now destruct (port_sender_tab port).
Qed.


(** *** C2: confirmed reports *)

(** C2.  A "muted" or "unmuted" message with a true [finalState] that
    arrives on a session's channel sets [isMuted] to the reported value
    and [hasMeetTab] to true, whatever they were, and repaints the badge
    for that state; the same holds for such a message sent one-shot by a
    tab. *)
Theorem C2_final_report_sets_state :
  forall pt port tabId (reported : bool) fs s,
    port_listener_tab port = Some tabId ->
    truthy fs = true ->
    let msg := mkTabMessage (if reported then "muted" else "unmuted") fs in
    let s' := handle pt (PortMessage port msg) s in
    let s'' := handle pt (RuntimeMessage msg (Some tabId)) s in
    (globalMuteState s' = mkGlobal reported true /\
     badge s' = badge_of reported /\
     trace s' = trace s ++ paint (badge_of reported) /\
     activeMeetTabs s' = activeMeetTabs s /\
     storage_muted s' = storage_muted s) /\
    (globalMuteState s'' = mkGlobal reported true /\
     badge s'' = badge_of reported /\
     trace s'' = trace s ++ paint (badge_of reported) ++ [SendResponse]).
Proof.
  intros pt port tabId reported fs s Hport Hfs; simpl.
  rewrite Hport.
  unfold port_onMessage, runtime_onMessage; simpl.
  destruct reported; simpl; rewrite Hfs; rewrite !updateAllTabsBadge_eq; simpl;
    rewrite <- ?app_assoc; repeat split; reflexivity.
Qed.

Lemma C2_final_report_sets_state_witness :
  port_listener_tab (meet_port 7 0) = Some 7 /\
  truthy (JBool true) = true /\
  globalMuteState
    (handle (fun _ => false)
            (PortMessage (meet_port 7 0) (mkTabMessage "muted" (JBool true)))
            (start JUndefined disconnected_badge)) = mkGlobal true true.
Proof.
  split; [reflexivity|split; [reflexivity|]].
  exact (proj1 (proj1 (C2_final_report_sets_state
                         (fun _ => false) (meet_port 7 0) 7 true (JBool true)
                         (start JUndefined disconnected_badge)
                         eq_refl eq_refl))).
Defined.

(** *** C3: broadcast *)

Lemma post_loop_spec pt m entries :
  forall pre s,
    activeMeetTabs s = pre ++ entries ->
    NoDup (map fst (pre ++ entries)) ->
    let s' := post_loop pt m entries s in
    trace s' = trace s ++ flat_map (post_effects pt m) entries /\
    activeMeetTabs s' = pre ++ filter (fun e => negb (pt (snd e))) entries /\
    globalMuteState s' = globalMuteState s /\
    storage_muted s' = storage_muted s /\
    badge s' = badge s.
Proof.
  induction entries as [|[tabId port] rest IH]; intros pre s Htabs Hnd; simpl.
  - rewrite !app_nil_r in *; auto.
  - unfold post_effects at 1; simpl.
    destruct (pt port) eqn:Hthrows; simpl.
    + (* the send throws: the entry is deleted *)
      rewrite Htabs, map_delete_middle by assumption.
      edestruct (IH pre) as (Htr & Hm & Hg & Hst & Hb);
        [| | rewrite Htr, Hm, Hg, Hst, Hb; simpl].
      * reflexivity.
      * rewrite map_app in *; simpl in Hnd.
        now apply NoDup_remove_1 in Hnd.
      * rewrite <- !app_assoc; auto.
    + (* the send returns *)
      edestruct (IH (pre ++ [(tabId, port)])) as (Htr & Hm & Hg & Hst & Hb);
        [| | rewrite Htr, Hm, Hg, Hst, Hb; simpl].
      * simpl; rewrite Htabs, <- app_assoc; reflexivity.
      * now rewrite <- app_assoc.
      * rewrite <- !app_assoc; auto.
Qed.

Lemma fallback_then_spec m tabs s :
  fallback_then m tabs s =
  mkBG (activeMeetTabs s) (globalMuteState s) (storage_muted s) (badge s)
       (trace s ++ map (fun tab => TabsSendMessage tab m (SendCatch tab)) tabs).
Proof.
  unfold fallback_then.
  destruct tabs as [|t tabs]; [simpl; rewrite app_nil_r; now destruct s|].
  replace (Z.of_nat (length (t :: tabs)) =? 0)%Z with false
    by (symmetry; apply Z.eqb_neq; simpl; lia).
  generalize (t :: tabs) as l; clear t tabs; intros l; revert s.
  induction l as [|t l IH]; intros s; simpl.
  - rewrite app_nil_r; now destruct s.
  - rewrite IH; simpl. now rewrite <- app_assoc.
Qed.

(** C3.  A broadcast to a non-empty registry calls [postMessage] on the
    channel of every registered session, in order; a call that throws
    removes that session and no other, and the calls on the remaining
    sessions are still made.  A broadcast to an empty registry queries
    the tabs by URL pattern; the message is then sent to each tab found,
    and a send that fails is logged on its own and changes nothing else. *)
Theorem C3_broadcast :
  forall pt m s,
    keys_unique s ->
    let s' := sendMessageToContentScript pt m s in
    (activeMeetTabs s <> [] ->
     trace s' = trace s ++ flat_map (post_effects pt m) (activeMeetTabs s) /\
     activeMeetTabs s' =
       filter (fun e => negb (pt (snd e))) (activeMeetTabs s)) /\
    (activeMeetTabs s = [] ->
     s' = emit (TabsQuery meet_url (FallbackThen m)) s /\
     (forall tabs s1,
         handle pt (TabsQueryDone tabs (FallbackThen m)) s1 =
         mkBG (activeMeetTabs s1) (globalMuteState s1) (storage_muted s1)
              (badge s1)
              (trace s1 ++
               map (fun tab => TabsSendMessage tab m (SendCatch tab)) tabs)) /\
     (forall tab s2,
         handle pt (PromiseRejected (SendCatch tab)) s2 =
         emit (ConsoleError "Error sending message to tab") s2)).
Proof.
  intros pt m s Hnd; unfold sendMessageToContentScript; simpl; split.
  - intros Hne.
    apply map_size_pos in Hne as Hpos; rewrite Hpos.
    destruct (post_loop_spec pt m (activeMeetTabs s) [] s eq_refl Hnd)
      as (Htr & Hm & _).
    now split.
  - intros Hnil; rewrite Hnil; simpl; repeat split.
    intros tabs s1; now apply fallback_then_spec.
Qed.

Lemma C3_broadcast_witness :
  keys_unique two_sessions /\
  trace (sendMessageToContentScript first_port_dead (toggle_command true)
                                    two_sessions) =
    trace two_sessions ++
    [PostMessage (meet_port 7 0) (toggle_command true);
     ConsoleError "Error posting message to tab";
     PostMessage (meet_port 8 1) (toggle_command true)] /\
  activeMeetTabs (sendMessageToContentScript first_port_dead
                                             (toggle_command true)
                                             two_sessions) =
    [(8, meet_port 8 1)].
Proof.
  assert (Hkeys : keys_unique two_sessions).
  { unfold keys_unique; simpl.
    repeat constructor; simpl; intuition discriminate. }
  split; [exact Hkeys|].
  destruct (C3_broadcast first_port_dead (toggle_command true) two_sessions
                         Hkeys) as [Hsome _].
  apply Hsome; discriminate.
Defined.

(** *** What a broadcast leaves alone *)

Lemma post_loop_frame pt m entries :
  forall s,
    let s' := post_loop pt m entries s in
    trace s' = trace s ++ flat_map (post_effects pt m) entries /\
    globalMuteState s' = globalMuteState s /\
    storage_muted s' = storage_muted s /\
    badge s' = badge s.
Proof.
  induction entries as [|[tabId port] rest IH]; intros s; simpl.
  - rewrite app_nil_r; auto.
  - unfold post_effects at 1; simpl.
    destruct (pt port);
      match goal with
      | |- context [post_loop pt m rest ?s1] =>
          destruct (IH s1) as (Htr & Hg & Hst & Hb)
      end;
      rewrite Htr, Hg, Hst, Hb; simpl; rewrite <- !app_assoc; auto.
Qed.

Lemma sendMessageToContentScript_frame pt m s :
  let s' := sendMessageToContentScript pt m s in
  trace s' = trace s ++ broadcast_effects pt m (activeMeetTabs s) /\
  globalMuteState s' = globalMuteState s /\
  storage_muted s' = storage_muted s /\
  badge s' = badge s.
Proof.
  unfold sendMessageToContentScript, broadcast_effects; simpl.
  destruct (map_size (activeMeetTabs s) >? 0)%Z.
  - apply post_loop_frame.
  - simpl; auto.
Qed.

Lemma simpleToggleMute_after_set_spec pt fromIconClick requested s :
  let s' := simpleToggleMute_after_set pt fromIconClick requested s in
  trace s' =
    trace s ++
    (if fromIconClick then [] else paint (badge_of requested)) ++
    broadcast_effects pt (toggle_command requested) (activeMeetTabs s) ++
    [SetTimeout Verification (if fromIconClick then 300 else 500)] /\
  badge s' = (if fromIconClick then badge s else badge_of requested) /\
  globalMuteState s' = globalMuteState s /\
  storage_muted s' = storage_muted s.
Proof.
  unfold simpleToggleMute_after_set; simpl.
  match goal with
  | |- context [sendMessageToContentScript pt ?m ?s1] =>
      destruct (sendMessageToContentScript_frame pt m s1) as (Htr & Hg & Hst & Hb)
  end.
  rewrite Htr, Hg, Hst, Hb.
  destruct fromIconClick; simpl.
  - rewrite <- !app_assoc; auto.
  - destruct requested; rewrite setGlobalBadge_eq; simpl;
      rewrite <- !app_assoc; auto.
Qed.

(** *** C5: the optimistic paint *)

(** The platform completing a storage call resumes what waits on it. *)
Lemma settle_get pt key k s :
  settle pt (emit (StorageGet key k) s) =
  handle pt (StorageGetDone k) (emit (StorageGet key k) s).
Proof. unfold settle; simpl; now rewrite last_last. Qed.

Lemma settle_set pt key v k s :
  settle pt (emit (StorageSet key v k) s) =
  handle pt (StorageSetDone v k) (emit (StorageSet key v k) s).
Proof. unfold settle; simpl; now rewrite last_last. Qed.

Lemma added_app before after l :
  trace after = trace before ++ l -> added before after = l.
Proof.
  unfold added; intros ->.
  rewrite skipn_app, skipn_all, Nat.sub_diag; reflexivity.
Qed.

Lemma broadcast_effects_no_paint pt m tabs :
  existsb is_paint (broadcast_effects pt m tabs) = false.
Proof.
  unfold broadcast_effects.
  destruct (map_size tabs >? 0)%Z; [|reflexivity].
  induction tabs as [|[tabId port] rest IH]; simpl; [reflexivity|].
  destruct (pt port); simpl; exact IH.
Qed.

(** With a session registered, a toggle from either origin runs the
    sequence with [fromIconClick] true, up to the broadcast. *)
Lemma toggle_until_broadcast_trace pt o s :
  activeMeetTabs s <> [] ->
  let requested := negb (truthy (storage_muted s)) in
  trace (toggle_until_broadcast pt o s) =
    trace s ++
    [StorageGet "muted" (AfterGet true);
     StorageSet "muted" (JBool requested) (Some (AfterSet true requested))] ++
    broadcast_effects pt (toggle_command requested) (activeMeetTabs s) ++
    [SetTimeout Verification 300].
Proof.
  intros Hne; cbv zeta; unfold toggle_until_broadcast.
  assert (Horigin : handle pt (origin_event o) s = simpleToggleMute true s).
  { destruct o; [|reflexivity].
    simpl; unfold onClicked.
    destruct (map_size (activeMeetTabs s) =? 0)%Z eqn:Hsize; [|reflexivity].
    apply map_size_zero in Hsize; contradiction. }
  rewrite Horigin; unfold simpleToggleMute.
  rewrite settle_get; cbn [handle].
  unfold simpleToggleMute_after_get; cbn [storage_muted emit].
  rewrite settle_set; cbn [handle].
  match goal with
  | |- context [simpleToggleMute_after_set pt ?f ?r ?s1] =>
      destruct (simpleToggleMute_after_set_spec pt f r s1) as (Htr & _)
  end.
  rewrite Htr; cbn [trace activeMeetTabs emit set_storage].
  rewrite <- !app_assoc; reflexivity.
Qed.

(** C5 (as the code has it).  The toggle sequence paints the badge to the
    requested state before it broadcasts exactly when its [fromIconClick]
    argument is false.  The icon click (with a session registered) and
    the registered keyboard command both run it with [fromIconClick]
    true, and the argument is handed on unchanged to the step that
    paints: for both, nothing is painted up to the broadcast. *)
Theorem C5_optimistic_paint_by_flag :
  forall pt fromIconClick requested s,
    activeMeetTabs s <> [] ->
    let s' := handle pt (StorageSetDone (JBool requested)
                           (Some (AfterSet fromIconClick requested))) s in
    trace s' =
      trace s ++
      (if fromIconClick then [] else paint (badge_of requested)) ++
      broadcast_effects pt (toggle_command requested) (activeMeetTabs s) ++
      [SetTimeout Verification (if fromIconClick then 300 else 500)] /\
    badge s' = (if fromIconClick then badge s else badge_of requested) /\
    handle pt (Command "toggle_mute") s = simpleToggleMute true s /\
    (forall tab, handle pt (ActionClicked tab) s = simpleToggleMute true s) /\
    simpleToggleMute fromIconClick s =
      emit (StorageGet "muted" (AfterGet fromIconClick)) s /\
    handle pt (StorageGetDone (AfterGet fromIconClick)) s =
      emit (StorageSet "muted" (JBool (negb (truthy (storage_muted s))))
              (Some (AfterSet fromIconClick (negb (truthy (storage_muted s))))))
           s /\
    (forall o, optimistic_paint pt o s = false).
Proof.
  intros pt fromIconClick requested s Hne; simpl.
  destruct (simpleToggleMute_after_set_spec pt fromIconClick requested
              (set_storage (JBool requested) s)) as (Htr & Hb & _).
  simpl in Htr, Hb.
  repeat split; try assumption.
  - intros tab; unfold onClicked.
    destruct (map_size (activeMeetTabs s) =? 0)%Z eqn:Hsize; [|reflexivity].
    apply map_size_zero in Hsize; contradiction.
  - intros o; unfold optimistic_paint.
    rewrite (added_app _ _ _ (toggle_until_broadcast_trace pt o s Hne)).
    rewrite !existsb_app, broadcast_effects_no_paint; reflexivity.
Qed.

Lemma C5_optimistic_paint_by_flag_witness :
  activeMeetTabs one_session <> [] /\
  handle (fun _ => false) (ActionClicked 1) one_session =
  simpleToggleMute true one_session.
Proof.
  assert (Hne : activeMeetTabs one_session <> []) by discriminate.
  split; [exact Hne|].
  destruct (C5_optimistic_paint_by_flag (fun _ => false) true true one_session
                                        Hne)
    as (_ & _ & _ & Hclick & _ & _ & _).
  apply Hclick.
Defined.

(** C5 as stated fails: the keyboard command, which is not a direct UI
    action, paints nothing before the broadcast. *)
Lemma C5_keyboard_command_not_painted :
  ~ C5_as_stated (fun _ => false) KeyboardCommand one_session.
Proof.
  unfold C5_as_stated; intros H.
  assert (Hne : activeMeetTabs one_session <> []) by discriminate.
  specialize (H Hne); vm_compute in H; discriminate.
Qed.

(** *** C6: a "disconnected" report on the channel *)

(** C6 (as the code has it).  A "disconnected" message on a session's
    channel removes no session.  When at most one session is registered
    it sets [hasMeetTab] to false, keeps [isMuted] and paints the
    disconnected badge; otherwise it changes nothing. *)
Theorem C6_disconnected_report :
  forall pt port tabId msg s,
    port_listener_tab port = Some tabId ->
    message msg = "disconnected" ->
    let s' := handle pt (PortMessage port msg) s in
    activeMeetTabs s' = activeMeetTabs s /\
    ((map_size (activeMeetTabs s) <=? 1)%Z = true ->
     globalMuteState s' = mkGlobal (isMuted (globalMuteState s)) false /\
     badge s' = disconnected_badge /\
     trace s' = trace s ++ paint disconnected_badge) /\
    ((map_size (activeMeetTabs s) <=? 1)%Z = false -> s' = s).
Proof.
  intros pt port tabId msg s Hport Hmsg; simpl.
  rewrite Hport; unfold port_onMessage; rewrite Hmsg; simpl.
  destruct (map_size (activeMeetTabs s) <=? 1)%Z.
  - rewrite updateAllTabsBadge_eq; simpl.
    repeat split; try reflexivity; discriminate.
  - repeat split; try reflexivity; discriminate.
Qed.

Lemma C6_disconnected_report_witness :
  port_listener_tab (meet_port 7 0) = Some 7 /\
  message disconnected_message = "disconnected" /\
  activeMeetTabs
    (handle (fun _ => false) (PortMessage (meet_port 7 0) disconnected_message)
            one_session) = activeMeetTabs one_session.
Proof.
  split; [reflexivity|split; [reflexivity|]].
  exact (proj1 (C6_disconnected_report (fun _ => false) (meet_port 7 0) 7
                  disconnected_message one_session eq_refl eq_refl)).
Defined.

(** C6 as stated fails: the only session reports "disconnected" and is
    still registered afterwards. *)
Lemma C6_session_not_removed :
  ~ C6_as_stated (fun _ => false) (meet_port 7 0) 7 one_session.
Proof.
  unfold C6_as_stated; intros H.
  destruct (H eq_refl eq_refl) as [Hgone _].
  vm_compute in Hgone; discriminate.
Qed.

(** *** C7: the toggle sequence *)

(** A toggle that no other event interleaves with, from the call to the
    repaint of the safety net. *)
Lemma toggle_uninterrupted pt fromIconClick s :
  let requested := negb (truthy (storage_muted s)) in
  let s3 := settle pt (handle pt (TimerFired Verification)
                         (settle pt (settle pt (simpleToggleMute fromIconClick s)))) in
  storage_muted s3 = JBool requested /\
  badge s3 = badge_of requested /\
  globalMuteState s3 = globalMuteState s /\
  trace s3 =
    trace s ++
    [StorageGet "muted" (AfterGet fromIconClick);
     StorageSet "muted" (JBool requested)
                (Some (AfterSet fromIconClick requested))] ++
    (if fromIconClick then [] else paint (badge_of requested)) ++
    broadcast_effects pt (toggle_command requested) (activeMeetTabs s) ++
    [SetTimeout Verification (if fromIconClick then 300 else 500);
     StorageGet "muted" AfterVerificationGet] ++
    paint (badge_of requested).
Proof.
  cbv zeta. unfold simpleToggleMute.
  rewrite settle_get; cbn [handle].
  unfold simpleToggleMute_after_get; cbn [storage_muted emit].
  rewrite settle_set; cbn [handle].
  set (requested := negb (truthy (storage_muted s))).
  match goal with
  | |- context [simpleToggleMute_after_set pt ?f ?r ?s1] =>
      pose proof (simpleToggleMute_after_set_spec pt f r s1) as H;
      cbv zeta in H;
      remember (simpleToggleMute_after_set pt f r s1) as s2 eqn:Hs2
  end.
  clear Hs2; destruct H as (Htr & Hb & Hg & Hst).
  cbn [trace storage_muted globalMuteState activeMeetTabs emit set_storage] in Htr, Hg, Hst.
  unfold verification; rewrite settle_get.
  cbn [handle]; unfold verification_after_get.
  cbn [storage_muted emit]; rewrite Hst; cbn [truthy].
  assert (Hpaint : forall s0,
             (if requested
              then setGlobalBadge "M" "#F44336" "Meet: Muted" s0
              else setGlobalBadge "U" "#4CAF50" "Meet: Unmuted" s0) =
             mkBG (activeMeetTabs s0) (globalMuteState s0) (storage_muted s0)
                  (badge_of requested) (trace s0 ++ paint (badge_of requested))).
  { intros s0; destruct requested; now rewrite setGlobalBadge_eq. }
  rewrite Hpaint; cbn [storage_muted badge globalMuteState trace emit].
  rewrite Hst, Hg, Htr.
  repeat split.
  rewrite <- !app_assoc; reflexivity.
Qed.

Lemma broadcast_effects_no_timer pt m tabs :
  flat_map verification_delay (broadcast_effects pt m tabs) = [].
Proof.
  unfold broadcast_effects.
  destruct (map_size tabs >? 0)%Z; [|reflexivity].
  induction tabs as [|[tabId port] rest IH]; simpl; [reflexivity|].
  destruct (pt port); simpl; exact IH.
Qed.

(** With a session registered, a toggle from either origin sets one
    verification timer, of 300 ms. *)
Lemma toggle_until_broadcast_delay pt o s :
  activeMeetTabs s <> [] ->
  verification_delays s (toggle_until_broadcast pt o s) = [300].
Proof.
  intros Hne; unfold verification_delays.
  rewrite (added_app _ _ _ (toggle_until_broadcast_trace pt o s Hne)).
  rewrite !flat_map_app, broadcast_effects_no_timer; reflexivity.
Qed.

(** C7 (as the code has it).  Every run of the toggle sequence reads the
    stored preference; when the read resolves it asks to store the
    negation of that value (true when nothing is stored); when the write
    is done the stored value is the requested one and, in the same step,
    the command is broadcast and a timer is set, of 300 ms when the
    sequence was called with [fromIconClick] true and of 500 ms otherwise;
    when the timer fires the preference is read again, and when that read
    resolves the badge is painted from the stored value alone.  The
    keyboard command and, with a session registered, the icon click both
    call the sequence with [fromIconClick] true, so both wait 300 ms.
    When the read or the write is rejected the sequence logs the error
    and does nothing more; when the read of the timer is rejected nothing
    is painted. *)
Theorem C7_toggle_sequence :
  forall pt fromIconClick s,
    simpleToggleMute fromIconClick s =
      emit (StorageGet "muted" (AfterGet fromIconClick)) s /\
    (let requested := negb (truthy (storage_muted s)) in
     handle pt (StorageGetDone (AfterGet fromIconClick)) s =
       emit (StorageSet "muted" (JBool requested)
                        (Some (AfterSet fromIconClick requested))) s) /\
    handle pt (StorageGetDone (AfterGet fromIconClick))
           (set_storage JUndefined s) =
      emit (StorageSet "muted" (JBool true)
                       (Some (AfterSet fromIconClick true)))
           (set_storage JUndefined s) /\
    (forall requested,
        let s' := handle pt (StorageSetDone (JBool requested)
                               (Some (AfterSet fromIconClick requested))) s in
        storage_muted s' = JBool requested /\
        trace s' =
          trace s ++
          (if fromIconClick then [] else paint (badge_of requested)) ++
          broadcast_effects pt (toggle_command requested) (activeMeetTabs s) ++
          [SetTimeout Verification (if fromIconClick then 300 else 500)] /\
        globalMuteState s' = globalMuteState s) /\
    handle pt (TimerFired Verification) s =
      emit (StorageGet "muted" AfterVerificationGet) s /\
    (let s' := handle pt (StorageGetDone AfterVerificationGet) s in
     badge s' = badge_of (truthy (storage_muted s)) /\
     trace s' = trace s ++ paint (badge_of (truthy (storage_muted s))) /\
     globalMuteState s' = globalMuteState s /\
     storage_muted s' = storage_muted s) /\
    (let requested := negb (truthy (storage_muted s)) in
     let s3 := settle pt (handle pt (TimerFired Verification)
                 (settle pt (settle pt (simpleToggleMute fromIconClick s)))) in
     storage_muted s3 = JBool requested /\
     badge s3 = badge_of requested /\
     globalMuteState s3 = globalMuteState s /\
     trace s3 =
       trace s ++
       [StorageGet "muted" (AfterGet fromIconClick);
        StorageSet "muted" (JBool requested)
                   (Some (AfterSet fromIconClick requested))] ++
       (if fromIconClick then [] else paint (badge_of requested)) ++
       broadcast_effects pt (toggle_command requested) (activeMeetTabs s) ++
       [SetTimeout Verification (if fromIconClick then 300 else 500);
        StorageGet "muted" AfterVerificationGet] ++
       paint (badge_of requested)) /\
    handle pt (Command "toggle_mute") s = simpleToggleMute true s /\
    (activeMeetTabs s <> [] ->
     (forall tab, handle pt (ActionClicked tab) s = simpleToggleMute true s) /\
     (forall o,
         verification_delays s (toggle_until_broadcast pt o s) = [300])) /\
    handle pt (PromiseRejected (AfterGet fromIconClick)) s =
      emit (ConsoleError "Error in simpleToggleMute:") s /\
    (forall requested,
        handle pt (PromiseRejected (AfterSet fromIconClick requested)) s =
        emit (ConsoleError "Error in simpleToggleMute:") s) /\
    handle pt (PromiseRejected AfterVerificationGet) s = s.
Proof.
  intros pt fromIconClick s.
  split; [reflexivity|].
  split; [reflexivity|].
  split; [reflexivity|].
  split.
  { intros requested.
    destruct (simpleToggleMute_after_set_spec pt fromIconClick requested
                (set_storage (JBool requested) s)) as (Htr & _ & Hg & Hst).
    simpl in *; auto. }
  split; [reflexivity|].
  split.
  { simpl; unfold verification_after_get.
    destruct (truthy (storage_muted s)); rewrite setGlobalBadge_eq; simpl; auto. }
  split; [apply toggle_uninterrupted|].
  split; [reflexivity|].
  split.
  { intros Hne; split.
    - intros tab; simpl; unfold onClicked.
      destruct (map_size (activeMeetTabs s) =? 0)%Z eqn:Hsize; [|reflexivity].
      apply map_size_zero in Hsize; contradiction.
    - intros o; now apply toggle_until_broadcast_delay. }
  repeat split.
Qed.

(** With one session registered the keyboard command sets its timer to
    300 ms. *)
Lemma C7_toggle_sequence_witness :
  activeMeetTabs one_session <> [] /\
  verification_delays one_session
    (toggle_until_broadcast (fun _ => false) KeyboardCommand one_session) =
  [300].
Proof.
  assert (Hne : activeMeetTabs one_session <> []) by discriminate.
  split; [exact Hne|].
  destruct (C7_toggle_sequence (fun _ => false) true one_session)
    as (_ & _ & _ & _ & _ & _ & _ & _ & Hcallers & _).
  exact (proj2 (Hcallers Hne) KeyboardCommand).
Defined.

(** C7 as stated fails in its clause on the delay: the keyboard command,
    which is not a direct UI action, waits the same 300 ms as the icon
    click, not longer. *)
Lemma C7_keyboard_command_waits_300 :
  ~ C7_as_stated (fun _ => false) one_session.
Proof.
  unfold C7_as_stated; intros H.
  assert (Hne : activeMeetTabs one_session <> []) by discriminate.
  destruct (H Hne IconClick KeyboardCommand eq_refl eq_refl)
    as (d & d' & Hd & Hd' & Hlt).
  vm_compute in Hd, Hd'.
  injection Hd as <-; injection Hd' as <-.
  lia.
Qed.

(** *** C8: who writes [isMuted] *)

Lemma confirmed_value_muted msg :
  confirmed_value msg =
  if message msg =? "muted" then
    if truthy (finalState msg) then Some true else None
  else if message msg =? "unmuted" then
    if truthy (finalState msg) then Some false else None
  else None.
Proof.
  unfold confirmed_value.
  destruct (truthy (finalState msg)); [reflexivity|].
  destruct (message msg =? "muted"); [reflexivity|].
  now destruct (message msg =? "unmuted").
Qed.

Lemma toggle_step_keeps_globalMuteState pt e s :
  toggle_step e = true ->
  globalMuteState (handle pt e s) = globalMuteState s.
Proof.
  destruct e; simpl; try discriminate; intros _.
  - unfold onCommand; now destruct (command =? "toggle_mute").
  - unfold onClicked.
    destruct (map_size (activeMeetTabs s) =? 0)%Z; [|reflexivity].
    now rewrite setGlobalBadge_eq.
  - destruct k; reflexivity.
  - destruct k; try reflexivity.
    unfold verification_after_get.
    destruct (truthy (storage_muted s)); now rewrite setGlobalBadge_eq.
  - destruct k as [[| | | | | |]|]; try reflexivity.
    now destruct (simpleToggleMute_after_set_spec
                    pt fromIconClick newMutedState (set_storage v s))
      as (_ & _ & Hg & _).
  - destruct k; try reflexivity.
    now rewrite fallback_then_spec.
  - destruct k; reflexivity.
Qed.

(** C8.  After any event, [isMuted] is the value of the confirmed report
    the event carries (a "muted" or "unmuted" message with a true
    [finalState], on a session's channel or one-shot from a tab) and is
    unchanged when the event carries none; every step of the toggle
    sequence leaves the whole of [globalMuteState] unchanged, and the
    completed write of the toggle changes the stored preference. *)
Theorem C8_isMuted_only_by_confirmed_reports :
  forall pt e s,
    isMuted (globalMuteState (handle pt e s)) =
      match confirmed_report e with
      | Some v => v
      | None => isMuted (globalMuteState s)
      end /\
    (if toggle_step e
     then globalMuteState (handle pt e s) = globalMuteState s
     else True) /\
    (forall fromIconClick requested,
        storage_muted
          (handle pt (StorageSetDone (JBool requested)
                        (Some (AfterSet fromIconClick requested))) s) =
        JBool requested).
Proof.
  intros pt e s; split; [|split].
  - destruct (toggle_step e) eqn:Hstep.
    + rewrite (toggle_step_keeps_globalMuteState pt e s Hstep).
      now destruct e; try discriminate.
    + destruct e; simpl in *; try discriminate.
      * unfold onRemoved.
        destruct (map_has tabId (activeMeetTabs s)); [|reflexivity].
        simpl; destruct (map_size _ =? 0)%Z; [|reflexivity].
        now rewrite setGlobalBadge_eq.
      * reflexivity.
      * now rewrite onConnect_keeps_globalMuteState.
      * destruct (port_listener_tab port); [|reflexivity].
        unfold port_onDisconnect.
        simpl; destruct (map_size _ =? 0)%Z; [|reflexivity].
        now rewrite setGlobalBadge_eq.
      * destruct (port_listener_tab port); [|reflexivity].
        rewrite confirmed_value_muted; unfold port_onMessage.
        destruct (message msg =? "muted");
          [|destruct (message msg =? "unmuted");
            [|destruct (message msg =? "disconnected")]].
        all: try (destruct (truthy (finalState msg));
                  [now rewrite updateAllTabsBadge_eq|reflexivity]).
        -- destruct (map_size (activeMeetTabs s) <=? 1)%Z; [|reflexivity].
           now rewrite updateAllTabsBadge_eq.
        -- reflexivity.
      * unfold runtime_onMessage.
        destruct sender_tab; [|reflexivity].
        rewrite confirmed_value_muted.
        destruct (message msg =? "content_script_loaded") eqn:Hloaded.
        -- apply String.eqb_eq in Hloaded; rewrite Hloaded; reflexivity.
        -- destruct (message msg =? "muted"); simpl;
             [|destruct (message msg =? "unmuted"); simpl; [|reflexivity]].
           all: destruct (truthy (finalState msg));
             [now rewrite updateAllTabsBadge_eq|reflexivity].
  - destruct (toggle_step e) eqn:Hstep; [|exact I].
    now apply toggle_step_keeps_globalMuteState.
  - intros fromIconClick requested; simpl.
    now destruct (simpleToggleMute_after_set_spec
                    pt fromIconClick requested
                    (set_storage (JBool requested) s)) as (_ & _ & _ & Hst).
Qed.

(** *** C1: the session flag and the registry *)

Lemma hasMeetTab_set_by_confirmed_report pt e s :
  hasMeetTab (globalMuteState s) = false ->
  hasMeetTab (globalMuteState (handle pt e s)) = true ->
  exists v, confirmed_report e = Some v.
Proof.
  intros Hoff Hon.
  destruct (toggle_step e) eqn:Hstep.
  { rewrite (toggle_step_keeps_globalMuteState pt e s Hstep) in Hon; congruence. }
  destruct e; simpl in *; try discriminate.
  - unfold onRemoved in Hon.
    destruct (map_has tabId (activeMeetTabs s)); [|congruence].
    simpl in Hon; destruct (map_size _ =? 0)%Z;
      [rewrite setGlobalBadge_eq in Hon; discriminate|]; simpl in Hon; congruence.
  - congruence.
  - rewrite onConnect_keeps_globalMuteState in Hon; congruence.
  - destruct (port_listener_tab port); [|congruence].
    unfold port_onDisconnect in Hon.
    simpl in Hon; destruct (map_size _ =? 0)%Z;
      [rewrite setGlobalBadge_eq in Hon; discriminate|]; simpl in Hon; congruence.
  - destruct (port_listener_tab port); [|congruence].
    rewrite confirmed_value_muted; unfold port_onMessage in Hon.
    destruct (message msg =? "muted").
    + destruct (truthy (finalState msg)); [now exists true|congruence].
    + destruct (message msg =? "unmuted").
      * destruct (truthy (finalState msg)); [now exists false|congruence].
      * destruct (message msg =? "disconnected"); [|congruence].
        destruct (map_size (activeMeetTabs s) <=? 1)%Z; [|congruence].
        rewrite updateAllTabsBadge_eq in Hon; discriminate.
  - unfold runtime_onMessage in Hon.
    destruct sender_tab; [|congruence].
    rewrite confirmed_value_muted.
    destruct (message msg =? "content_script_loaded"); [simpl in Hon; congruence|].
    destruct (message msg =? "muted"); simpl in Hon.
    + destruct (truthy (finalState msg)); [now exists true|simpl in Hon; congruence].
    + destruct (message msg =? "unmuted"); simpl in Hon; [|congruence].
      destruct (truthy (finalState msg)); [now exists false|simpl in Hon; congruence].
Qed.

Lemma registry_op_never_sets_flag pt e s :
  registry_op e = true ->
  hasMeetTab (globalMuteState (handle pt e s)) = true ->
  hasMeetTab (globalMuteState s) = true.
Proof.
  intros Hop Hon.
  destruct (hasMeetTab (globalMuteState s)) eqn:Hoff; [reflexivity|].
  destruct (hasMeetTab_set_by_confirmed_report pt e s Hoff Hon) as [v Hv].
  destruct e; simpl in *; discriminate.
Qed.

(** C1 (as the code has it).  Over every sequence of register and
    unregister operations, started where [hasMeetTab] implies a
    registered session, [hasMeetTab] still implies a registered session
    after each operation.  Registering a session leaves [globalMuteState]
    as it was, and no sequence of these operations sets [hasMeetTab]: it
    is true afterwards only if it was true before.  Of all the events of
    the script, only one that carries a confirmed report turns
    [hasMeetTab] from false to true. *)
Theorem C1_flag_implies_sessions :
  forall pt es s,
    forallb registry_op es = true ->
    flag_implies_sessions s ->
    flag_implies_sessions (run pt es s) /\
    (forall port,
        globalMuteState (handle pt (Connect port) (run pt es s)) =
        globalMuteState (run pt es s)) /\
    (hasMeetTab (globalMuteState (run pt es s)) = true ->
     hasMeetTab (globalMuteState s) = true) /\
    (forall e s0,
        hasMeetTab (globalMuteState s0) = false ->
        hasMeetTab (globalMuteState (handle pt e s0)) = true ->
        exists v, confirmed_report e = Some v).
Proof.
  intros pt es s Hops Hs; split; [|split; [|split]].
  - revert s Hs; induction es as [|e es IH]; simpl in *; intros s Hs.
    + assumption.
    + apply andb_true_iff in Hops as [He Hes].
      apply IH; [assumption|].
      now apply registry_op_keeps_flag_sound.
  - intros port; apply onConnect_keeps_globalMuteState.
  - clear Hs; revert s; induction es as [|e es IH]; simpl in *; intros s Hon.
    + assumption.
    + apply andb_true_iff in Hops as [He Hes].
      apply (registry_op_never_sets_flag pt e s He).
      now apply IH.
  - intros e s0; apply hasMeetTab_set_by_confirmed_report.
Qed.

(** A session that has confirmed its state is joined by a second one and
    then leaves: [hasMeetTab] is true throughout and the registry still
    holds the second session. *)
Lemma C1_flag_implies_sessions_witness :
  forallb registry_op [Connect (meet_port 8 1); TabRemoved 7] = true /\
  flag_implies_sessions confirmed_session /\
  hasMeetTab
    (globalMuteState
       (run (fun _ => false) [Connect (meet_port 8 1); TabRemoved 7]
            confirmed_session)) = true /\
  activeMeetTabs
    (run (fun _ => false) [Connect (meet_port 8 1); TabRemoved 7]
         confirmed_session) <> [].
Proof.
  assert (Hops : forallb registry_op
                   [Connect (meet_port 8 1); TabRemoved 7] = true)
    by reflexivity.
  assert (Hs : flag_implies_sessions confirmed_session)
    by (unfold flag_implies_sessions; simpl; discriminate).
  split; [exact Hops|split; [exact Hs|split; [reflexivity|]]].
  exact (proj1 (C1_flag_implies_sessions (fun _ => false) _ _ Hops Hs)
               eq_refl).
Defined.

(** C1 as stated fails: after a channel connects to the freshly started
    script, a session is registered and [hasMeetTab] is still false. *)
Lemma C1_register_leaves_flag_false :
  ~ C1_as_stated (fun _ => false) [Connect (meet_port 7 0)]
      JUndefined disconnected_badge.
Proof.
  unfold C1_as_stated, flag_iff_sessions; simpl; intros H.
  destruct (H eq_refl) as [_ Hflag].
  assert (false = true) by (apply Hflag; discriminate).
  discriminate.
Qed.

(** *** C9: the icon click with no session *)

(** C9 (as the code has it).  An icon click with no session registered
    paints the "!" warning and sets a 3000 ms timer, and the timer paints
    the disconnected badge.  Nothing else happens: no message is sent, no
    tab query is made, and the registry, [globalMuteState] and the stored
    preference are as before. *)
Theorem C9_warning_without_session :
  forall pt tab s,
    activeMeetTabs s = [] ->
    let s1 := handle pt (ActionClicked tab) s in
    let s2 := warning_scenario pt tab s in
    s1 = mkBG [] (globalMuteState s) (storage_muted s) warning_badge
              (trace s ++ paint warning_badge ++ [SetTimeout ClearWarning 3000]) /\
    s2 = mkBG [] (globalMuteState s) (storage_muted s) disconnected_badge
              (trace s1 ++ paint disconnected_badge) /\
    existsb is_send (added s s2) = false /\
    existsb is_query (added s s2) = false.
Proof.
  intros pt tab s Hnil; unfold warning_scenario; simpl.
  unfold onClicked, clear_warning; rewrite Hnil; simpl.
  rewrite !setGlobalBadge_eq; unfold emit, paint; simpl.
  rewrite Hnil, <- !app_assoc; simpl.
  split; [reflexivity|].
  split; [reflexivity|].
  split;
    rewrite (added_app _ _ (paint warning_badge ++
                            [SetTimeout ClearWarning 3000] ++
                            paint disconnected_badge));
    reflexivity.
Qed.

Lemma C9_warning_without_session_witness :
  activeMeetTabs (start JUndefined disconnected_badge) = [] /\
  existsb is_query
    (added (start JUndefined disconnected_badge)
           (warning_scenario (fun _ => false) 1
                             (start JUndefined disconnected_badge))) = false.
Proof.
  split; [reflexivity|].
  apply (C9_warning_without_session (fun _ => false) 1
           (start JUndefined disconnected_badge)).
  reflexivity.
Defined.

(** C9 as stated fails: the click with no session makes no tab query. *)
Lemma C9_no_fallback_query :
  ~ C9_as_stated (fun _ => false) 1 (start JUndefined disconnected_badge).
Proof.
  unfold C9_as_stated; intros H.
  destruct (H eq_refl) as (_ & _ & _ & Hquery & _).
  vm_compute in Hquery; discriminate.
Qed.

(** *** Reachable registries have distinct keys *)

Lemma filter_keys_unique (f : Z * Port -> bool) m :
  NoDup (map fst m) -> NoDup (map fst (filter f m)).
Proof.
  induction m as [|e rest IH]; simpl; intros Hnd.
  - constructor.
  - inversion Hnd as [|? ? Hnot Hrest]; subst.
    destruct (f e); simpl; [|now apply IH].
    constructor; [|now apply IH].
    intros Hin; apply Hnot.
    apply in_map_iff in Hin as [e' [He Hin]].
    apply filter_In in Hin as [Hin _].
    apply in_map_iff; now exists e'.
Qed.

Lemma sendMessageToContentScript_keys_unique pt m s :
  keys_unique s -> keys_unique (sendMessageToContentScript pt m s).
Proof.
  unfold keys_unique, sendMessageToContentScript; intros Hnd.
  destruct (map_size (activeMeetTabs s) >? 0)%Z; [|assumption].
  destruct (post_loop_spec pt m (activeMeetTabs s) [] s eq_refl Hnd)
    as (_ & Hm & _).
  simpl in Hm; rewrite Hm.
  now apply filter_keys_unique.
Qed.

Lemma handle_keys_unique pt e s :
  keys_unique s -> keys_unique (handle pt e s).
Proof.
  unfold keys_unique; intros Hnd.
  destruct e; simpl.
  - unfold onRemoved.
    destruct (map_has tabId (activeMeetTabs s)); [|assumption].
    simpl; destruct (map_size _ =? 0)%Z;
      rewrite ?setGlobalBadge_eq; simpl; now apply map_delete_unique.
  - assumption.
  - unfold onConnect.
    destruct (port_name port =? connection_name); [|assumption].
    destruct (port_sender_tab port); [|assumption].
    simpl; now apply map_set_unique.
  - destruct (port_listener_tab port); [|assumption].
    unfold port_onDisconnect.
    simpl; destruct (map_size _ =? 0)%Z;
      rewrite ?setGlobalBadge_eq; simpl; now apply map_delete_unique.
  - destruct (port_listener_tab port); [|assumption].
    unfold port_onMessage.
    repeat match goal with
           | |- context [if ?b then _ else _] => destruct b
           end; rewrite ?updateAllTabsBadge_eq; assumption.
  - unfold runtime_onMessage.
    destruct sender_tab; [|assumption].
    repeat match goal with
           | |- context [if ?b then _ else _] => destruct b
           end; simpl; rewrite ?updateAllTabsBadge_eq; assumption.
  - unfold onCommand; now destruct (command =? "toggle_mute").
  - unfold onClicked.
    destruct (map_size (activeMeetTabs s) =? 0)%Z; [|assumption].
    now rewrite setGlobalBadge_eq.
  - destruct k; assumption.
  - destruct k; try assumption.
    unfold verification_after_get.
    destruct (truthy (storage_muted s)); assumption.
  - destruct k as [[| | | | | |]|]; try assumption.
    unfold simpleToggleMute_after_set; simpl.
    apply (sendMessageToContentScript_keys_unique pt).
    unfold keys_unique.
    destruct fromIconClick; simpl; [assumption|].
    destruct newMutedState; assumption.
  - destruct k; try assumption.
    now rewrite fallback_then_spec.
  - destruct k; assumption.
Qed.

(** Every state the script reaches from its start has distinct keys. *)
Lemma run_keys_unique pt es stored b :
  keys_unique (run pt es (start stored b)).
Proof.
  assert (H : forall s, keys_unique s -> keys_unique (run pt es s)).
  { induction es as [|e es IH]; simpl; intros s Hs; [assumption|].
    apply IH; now apply handle_keys_unique. }
  apply H; constructor.
Qed.

(** ** Further properties of the background *)

(** *** Sessions leaving *)

Lemma map_delete_has k m : map_has k (map_delete k m) = false.
Proof.
  unfold map_has, map_delete; induction m as [|[k' v'] rest IH]; simpl.
  - reflexivity.
  - destruct (Z.eqb_spec k' k) as [->|Hne]; simpl; [exact IH|].
    rewrite IH. now apply Z.eqb_neq in Hne as ->.
Qed.

Lemma map_delete_In k k' v m :
  In (k', v) (map_delete k m) <-> In (k', v) m /\ k' <> k.
Proof.
  unfold map_delete; rewrite filter_In; simpl.
  rewrite negb_true_iff, Z.eqb_neq; reflexivity.
Qed.

Lemma set_tabs_same s : set_tabs (activeMeetTabs s) s = s.
Proof. now destruct s. Qed.

(** X1.  The last session leaving, by its tab being removed or by its channel
    disconnecting, empties the registry, clears [hasMeetTab], keeps
    [isMuted] and paints the disconnected badge. *)
Theorem last_session_leaves :
  forall pt port tabId p s,
    port_listener_tab port = Some tabId ->
    activeMeetTabs s = [(tabId, p)] ->
    handle pt (PortDisconnect port) s =
      mkBG [] (mkGlobal (isMuted (globalMuteState s)) false) (storage_muted s)
           disconnected_badge (trace s ++ paint disconnected_badge) /\
    handle pt (TabRemoved tabId) s =
      mkBG [] (mkGlobal (isMuted (globalMuteState s)) false) (storage_muted s)
           disconnected_badge (trace s ++ paint disconnected_badge).
Proof.
  intros pt port tabId p s Hport Htabs; simpl.
  rewrite Hport; unfold port_onDisconnect, onRemoved.
  rewrite Htabs; simpl; rewrite Z.eqb_refl; simpl.
  now rewrite setGlobalBadge_eq.
Qed.

Lemma last_session_leaves_witness :
  port_listener_tab (meet_port 7 0) = Some 7 /\
  activeMeetTabs one_session = [(7, meet_port 7 0)] /\
  hasMeetTab
    (globalMuteState
       (handle (fun _ => false) (PortDisconnect (meet_port 7 0)) one_session)) =
  false.
Proof.
  split; [reflexivity|split; [reflexivity|]].
  destruct (last_session_leaves (fun _ => false) (meet_port 7 0) 7
              (meet_port 7 0) one_session eq_refl eq_refl) as [Hd _].
  now rewrite Hd.
Defined.

(** X2.  While a session of another tab stays registered, a tab being removed
    or a channel disconnecting only deletes the entries of its own tab:
    the aggregate state, the badge and the trace are untouched and the
    other session is still registered. *)
Theorem other_session_stays :
  forall pt port tabId other p s,
    port_listener_tab port = Some tabId ->
    In (other, p) (activeMeetTabs s) ->
    other <> tabId ->
    handle pt (PortDisconnect port) s =
      set_tabs (map_delete tabId (activeMeetTabs s)) s /\
    handle pt (TabRemoved tabId) s =
      set_tabs (map_delete tabId (activeMeetTabs s)) s /\
    In (other, p) (map_delete tabId (activeMeetTabs s)).
Proof.
  intros pt port tabId other p s Hport Hin Hne.
  assert (Hstay : In (other, p) (map_delete tabId (activeMeetTabs s)))
    by now apply map_delete_In.
  assert (Hsize : (map_size (map_delete tabId (activeMeetTabs s)) =? 0)%Z = false).
  { destruct (map_size _ =? 0)%Z eqn:Hz; [|reflexivity].
    apply map_size_zero in Hz; rewrite Hz in Hstay; contradiction. }
  simpl; rewrite Hport; unfold port_onDisconnect, onRemoved; simpl.
  rewrite Hsize.
  repeat split; try assumption.
  destruct (map_has tabId (activeMeetTabs s)) eqn:Hhas; [reflexivity|].
  rewrite map_delete_absent; [now rewrite set_tabs_same|].
  intros Hk; apply map_has_In in Hk; congruence.
Qed.

Lemma other_session_stays_witness :
  port_listener_tab (meet_port 7 0) = Some 7 /\
  In (8, meet_port 8 1) (activeMeetTabs two_sessions) /\
  8 <> 7 /\
  In (8, meet_port 8 1) (map_delete 7 (activeMeetTabs two_sessions)).
Proof.
  assert (Hin : In (8, meet_port 8 1) (activeMeetTabs two_sessions))
    by (simpl; auto).
  assert (Hne : 8 <> 7) by discriminate.
  split; [reflexivity|split; [exact Hin|split; [exact Hne|]]].
  exact (proj2 (proj2 (other_session_stays (fun _ => false) (meet_port 7 0) 7 8
                         (meet_port 8 1) two_sessions eq_refl Hin Hne))).
Defined.

(** X3.  A disconnect deletes by tab id, not by port: after a tab has
    connected again, the disconnect of its old channel leaves no entry
    for the tab, although the registry held the new channel. *)
Theorem stale_disconnect_drops_new_channel :
  forall pt old new tabId s,
    port_listener_tab old = Some tabId ->
    port_listener_tab new = Some tabId ->
    In (tabId, new) (activeMeetTabs (handle pt (Connect new) s)) /\
    map_has tabId
      (activeMeetTabs
         (handle pt (PortDisconnect old) (handle pt (Connect new) s))) = false.
Proof.
  intros pt old new tabId s Hold Hnew; split.
  - simpl; unfold onConnect, port_listener_tab in *.
    destruct (port_name new =? connection_name); [|discriminate].
    rewrite Hnew; simpl.
    induction (activeMeetTabs s) as [|[k v] rest IH]; simpl; [now left|].
    destruct (k =? tabId)%Z; simpl; auto.
  - simpl; rewrite Hold; unfold port_onDisconnect; simpl.
    destruct (map_size _ =? 0)%Z; rewrite ?setGlobalBadge_eq; simpl;
      apply map_delete_has.
Qed.

Lemma stale_disconnect_drops_new_channel_witness :
  port_listener_tab (meet_port 7 0) = Some 7 /\
  port_listener_tab (meet_port 7 1) = Some 7 /\
  map_has 7
    (activeMeetTabs
       (handle (fun _ => false) (PortDisconnect (meet_port 7 0))
               (handle (fun _ => false) (Connect (meet_port 7 1)) one_session))) =
  false.
Proof.
  split; [reflexivity|split; [reflexivity|]].
  exact (proj2 (stale_disconnect_drops_new_channel
                  (fun _ => false) (meet_port 7 0) (meet_port 7 1) 7 one_session
                  eq_refl eq_refl)).
Defined.

(** *** Sessions arriving *)

Lemma onConnect_accepted port tabId s :
  port_listener_tab port = Some tabId ->
  onConnect port s =
  emit (SetTitle (Some tabId) "Connected to Meet")
       (set_tabs (map_set tabId port (activeMeetTabs s)) s).
Proof.
  unfold port_listener_tab, onConnect.
  destruct (port_name port =? connection_name); [|discriminate].
  now intros ->.
Qed.

Lemma map_set_In_key k v p m :
  NoDup (map fst m) -> In (k, p) (map_set k v m) <-> p = v.
Proof.
  induction m as [|[k' v'] rest IH]; simpl; intros Hnd.
  - split; [intros [H|[]]; congruence|intros ->; now left].
  - inversion Hnd as [|? ? Hnot Hrest]; subst.
    destruct (Z.eqb_spec k' k) as [->|Hne]; simpl.
    + split; [intros [H|H]|intros ->; now left].
      * congruence.
      * exfalso; apply Hnot; apply in_map_iff; now exists (k, p).
    + rewrite IH by assumption.
      split; [intros [H|H]; [congruence|assumption]|auto].
Qed.

Lemma map_set_In_other k v k' p m :
  k' <> k -> In (k', p) (map_set k v m) <-> In (k', p) m.
Proof.
  intros Hne; induction m as [|[k0 v0] rest IH]; simpl.
  - split; [intros [H|[]]; congruence|intros []].
  - destruct (Z.eqb_spec k0 k) as [->|Hne0]; simpl.
    + split; (intros [H|H]; [congruence|now right]).
    + rewrite IH; reflexivity.
Qed.

Lemma map_set_size k v m :
  map_size (map_set k v m) =
  if map_has k m then map_size m else map_size m + 1.
Proof.
  unfold map_size, map_has; induction m as [|[k' v'] rest IH].
  - reflexivity.
  - cbn [map_set existsb fst].
    destruct (k' =? k)%Z; cbn [orb]; [reflexivity|].
    cbn [length]; rewrite !Nat2Z.inj_succ, IH.
    destruct (existsb _ rest); lia.
Qed.

(** X4.  A channel that connects is registered under its tab: afterwards the
    tab has exactly this channel, the sessions of other tabs are as they
    were, the registry grows by one only when the tab was not registered,
    and the aggregate state and the badge are not touched. *)
Theorem connect_registers :
  forall pt port tabId s,
    port_listener_tab port = Some tabId ->
    keys_unique s ->
    let s' := handle pt (Connect port) s in
    (forall p, In (tabId, p) (activeMeetTabs s') <-> p = port) /\
    (forall other p,
        other <> tabId ->
        In (other, p) (activeMeetTabs s') <-> In (other, p) (activeMeetTabs s)) /\
    map_size (activeMeetTabs s') =
      (if map_has tabId (activeMeetTabs s)
       then map_size (activeMeetTabs s)
       else map_size (activeMeetTabs s) + 1) /\
    globalMuteState s' = globalMuteState s /\
    badge s' = badge s.
Proof.
  intros pt port tabId s Hport Hkeys; cbn [handle].
  rewrite (onConnect_accepted port tabId s Hport); cbn.
  split; [intros p; now apply map_set_In_key|].
  split; [intros other p Hne; now apply map_set_In_other|].
  split; [apply map_set_size|auto].
Qed.

Lemma connect_registers_witness :
  port_listener_tab (meet_port 7 1) = Some 7 /\
  keys_unique one_session /\
  map_size (activeMeetTabs
              (handle (fun _ => false) (Connect (meet_port 7 1)) one_session)) =
  1.
Proof.
  assert (Hkeys : keys_unique one_session)
    by (unfold keys_unique; simpl; repeat constructor; intros []).
  split; [reflexivity|split; [exact Hkeys|]].
  destruct (connect_registers (fun _ => false) (meet_port 7 1) 7 one_session
              eq_refl Hkeys) as (_ & _ & Hsize & _).
  exact Hsize.
Defined.

(** X5.  A channel with another name, or whose sender is not a tab, is never
    registered and has no listeners: connecting it, its messages and its
    disconnect change nothing. *)
Theorem refused_port_ignored :
  forall pt port msg s,
    port_listener_tab port = None ->
    handle pt (Connect port) s = s /\
    handle pt (PortMessage port msg) s = s /\
    handle pt (PortDisconnect port) s = s.
Proof.
  intros pt port msg s Hport; simpl; rewrite Hport.
  repeat split.
  unfold onConnect, port_listener_tab in *.
  destruct (port_name port =? connection_name); [|reflexivity].
  now rewrite Hport.
Qed.

Lemma refused_port_ignored_witness :
  port_listener_tab (mkPort "popup" (Some 7) 0) = None /\
  handle (fun _ => false) (Connect (mkPort "popup" (Some 7) 0))
         (start JUndefined disconnected_badge) =
  start JUndefined disconnected_badge.
Proof.
  split; [reflexivity|].
  exact (proj1 (refused_port_ignored (fun _ => false)
                  (mkPort "popup" (Some 7) 0) disconnected_message
                  (start JUndefined disconnected_badge) eq_refl)).
Defined.

(** *** Broadcasts *)

Lemma filter_none (f : Z * Port -> bool) m :
  (forall e, In e m -> f e = false) -> filter f m = [].
Proof.
  induction m as [|e rest IH]; simpl; intros H; [reflexivity|].
  rewrite (H e) by now left.
  apply IH; intros e' He'; apply H; now right.
Qed.

Lemma filter_all (f : Z * Port -> bool) m :
  (forall e, In e m -> f e = true) -> filter f m = m.
Proof.
  induction m as [|e rest IH]; simpl; intros H; [reflexivity|].
  rewrite (H e) by now left.
  f_equal; apply IH; intros e' He'; apply H; now right.
Qed.

Lemma healthy_posts_no_error pt m tabs :
  (forall e, In e tabs -> pt (snd e) = false) ->
  existsb is_error (flat_map (post_effects pt m) tabs) = false.
Proof.
  induction tabs as [|e rest IH]; simpl; intros H; [reflexivity|].
  rewrite (H e) by now left.
  simpl; apply IH; intros e' He'; apply H; now right.
Qed.

(** X6.  A broadcast never writes the aggregate state, the stored preference
    or the badge; when every channel throws it empties the registry and
    still leaves [hasMeetTab] as it was. *)
Theorem broadcast_keeps_aggregate_state :
  forall pt m s,
    keys_unique s ->
    let s' := sendMessageToContentScript pt m s in
    globalMuteState s' = globalMuteState s /\
    storage_muted s' = storage_muted s /\
    badge s' = badge s /\
    ((forall e, In e (activeMeetTabs s) -> pt (snd e) = true) ->
     activeMeetTabs s' = []).
Proof.
  intros pt m s Hkeys; cbv zeta.
  destruct (sendMessageToContentScript_frame pt m s) as (_ & Hg & Hst & Hb).
  repeat split; try assumption.
  intros Hdead; unfold sendMessageToContentScript.
  destruct (map_size (activeMeetTabs s) >? 0)%Z eqn:Hsize.
  - destruct (post_loop_spec pt m (activeMeetTabs s) [] s eq_refl Hkeys)
      as (_ & Hm & _).
    cbn [app] in Hm; rewrite Hm.
    apply filter_none; intros e He; now rewrite Hdead.
  - cbn. destruct (activeMeetTabs s); [reflexivity|discriminate].
Qed.

Lemma broadcast_keeps_aggregate_state_witness :
  keys_unique two_sessions /\
  hasMeetTab
    (globalMuteState
       (sendMessageToContentScript (fun _ => true) (toggle_command true)
                                   two_sessions)) =
  hasMeetTab (globalMuteState two_sessions).
Proof.
  assert (Hkeys : keys_unique two_sessions).
  { unfold keys_unique; simpl.
    repeat constructor; simpl; intuition discriminate. }
  split; [exact Hkeys|].
  destruct (broadcast_keeps_aggregate_state (fun _ => true) (toggle_command true)
              two_sessions Hkeys) as (Hg & _).
  now rewrite Hg.
Defined.

(** X7.  After a broadcast, a second one that meets the same channels removes
    no session and logs no error: the channels that throw were all
    dropped by the first. *)
Theorem second_broadcast_clean :
  forall pt m m' s,
    keys_unique s ->
    let s1 := sendMessageToContentScript pt m s in
    let s2 := sendMessageToContentScript pt m' s1 in
    activeMeetTabs s2 = activeMeetTabs s1 /\
    existsb is_error (added s1 s2) = false.
Proof.
  intros pt m m' s Hkeys; cbv zeta.
  set (s1 := sendMessageToContentScript pt m s).
  assert (Hhealthy : forall e, In e (activeMeetTabs s1) -> pt (snd e) = false).
  { subst s1; unfold sendMessageToContentScript.
    destruct (map_size (activeMeetTabs s) >? 0)%Z eqn:Hsize.
    - destruct (post_loop_spec pt m (activeMeetTabs s) [] s eq_refl Hkeys)
        as (_ & Hm & _).
      cbn [app] in Hm; rewrite Hm.
      intros e He; apply filter_In in He as [_ He].
      now apply negb_true_iff in He.
    - cbn; destruct (activeMeetTabs s); [intros e []|discriminate]. }
  assert (Hkeys1 : keys_unique s1)
    by now apply sendMessageToContentScript_keys_unique.
  destruct (sendMessageToContentScript_frame pt m' s1) as (Htr & _).
  rewrite (added_app _ _ _ Htr).
  unfold sendMessageToContentScript, broadcast_effects.
  destruct (map_size (activeMeetTabs s1) >? 0)%Z eqn:Hsize.
  - destruct (post_loop_spec pt m' (activeMeetTabs s1) [] s1 eq_refl Hkeys1)
      as (_ & Hm & _).
    cbn [app] in Hm; rewrite Hm; split.
    + apply filter_all; intros e He; now rewrite (Hhealthy e He).
    + now apply healthy_posts_no_error.
  - split; reflexivity.
Qed.

Lemma second_broadcast_clean_witness :
  keys_unique two_sessions /\
  activeMeetTabs
    (sendMessageToContentScript first_port_dead (toggle_command false)
       (sendMessageToContentScript first_port_dead (toggle_command true)
                                   two_sessions)) =
  activeMeetTabs
    (sendMessageToContentScript first_port_dead (toggle_command true)
                                two_sessions).
Proof.
  assert (Hkeys : keys_unique two_sessions).
  { unfold keys_unique; simpl.
    repeat constructor; simpl; intuition discriminate. }
  split; [exact Hkeys|].
  exact (proj1 (second_broadcast_clean first_port_dead (toggle_command true)
                  (toggle_command false) two_sessions Hkeys)).
Defined.

(** *** Toggles *)

(** X8.  Two toggles in a row, each run to its repaint before anything else
    happens, bring the stored preference back to what it was (read as a
    boolean: nothing stored counts as false), paint the badge for that
    value and leave the aggregate state alone. *)
Theorem double_toggle_restores_preference :
  forall pt first second s,
    let s2 := toggle_once pt second (toggle_once pt first s) in
    storage_muted s2 = JBool (truthy (storage_muted s)) /\
    badge s2 = badge_of (truthy (storage_muted s)) /\
    globalMuteState s2 = globalMuteState s.
Proof.
  intros pt first second s; cbv zeta; unfold toggle_once.
  destruct (toggle_uninterrupted pt first s) as (Hst1 & _ & Hg1 & _).
  match goal with
  | |- context [simpleToggleMute second ?s1] =>
      destruct (toggle_uninterrupted pt second s1) as (Hst2 & Hb2 & Hg2 & _);
      rewrite Hst1 in Hst2, Hb2; cbn [truthy] in Hst2, Hb2;
      rewrite negb_involutive in Hst2, Hb2
  end.
  rewrite Hst2, Hb2, Hg2, Hg1; auto.
Qed.

(** X9.  The keyboard command is not guarded by the registry: with no session
    registered it still flips the stored preference, queries the tabs by
    URL, and 300 ms later paints the mute badge of the new preference,
    while [hasMeetTab] stays as it was. *)
Theorem keyboard_toggle_without_session :
  forall pt s,
    activeMeetTabs s = [] ->
    let requested := negb (truthy (storage_muted s)) in
    let s3 := settle pt (handle pt (TimerFired Verification)
                (settle pt (settle pt (handle pt (Command "toggle_mute") s)))) in
    storage_muted s3 = JBool requested /\
    badge s3 = badge_of requested /\
    globalMuteState s3 = globalMuteState s /\
    trace s3 =
      trace s ++
      [StorageGet "muted" (AfterGet true);
       StorageSet "muted" (JBool requested) (Some (AfterSet true requested));
       TabsQuery meet_url (FallbackThen (toggle_command requested));
       SetTimeout Verification 300;
       StorageGet "muted" AfterVerificationGet] ++
      paint (badge_of requested).
Proof.
  intros pt s Hnil; cbv zeta.
  change (handle pt (Command "toggle_mute") s) with (simpleToggleMute true s).
  destruct (toggle_uninterrupted pt true s) as (Hst & Hb & Hg & Htr).
  rewrite Hst, Hb, Hg, Htr, Hnil.
  repeat split.
Qed.

Lemma keyboard_toggle_without_session_witness :
  activeMeetTabs (start JUndefined disconnected_badge) = [] /\
  badge
    (settle (fun _ => false)
       (handle (fun _ => false) (TimerFired Verification)
          (settle (fun _ => false)
             (settle (fun _ => false)
                (handle (fun _ => false) (Command "toggle_mute")
                        (start JUndefined disconnected_badge)))))) =
  muted_badge.
Proof.
  split; [reflexivity|].
  exact (proj1 (proj2 (keyboard_toggle_without_session
                         (fun _ => false) (start JUndefined disconnected_badge)
                         eq_refl))).
Defined.

(** X10.  Two toggles whose reads both resolve before either write ask to
    store the same value, the negation of what was stored when they
    read; once both writes are done the preference has moved once, not
    twice. *)
Theorem overlapping_toggles_request_same_value :
  forall pt first second s,
    let requested := negb (truthy (storage_muted s)) in
    let s' := run pt [StorageGetDone (AfterGet first);
                      StorageGetDone (AfterGet second)]
                  (simpleToggleMute second (simpleToggleMute first s)) in
    trace s' =
      trace s ++
      [StorageGet "muted" (AfterGet first);
       StorageGet "muted" (AfterGet second);
       StorageSet "muted" (JBool requested) (Some (AfterSet first requested));
       StorageSet "muted" (JBool requested) (Some (AfterSet second requested))] /\
    storage_muted
      (run pt [StorageSetDone (JBool requested) (Some (AfterSet first requested));
               StorageSetDone (JBool requested)
                              (Some (AfterSet second requested))] s') =
    JBool requested.
Proof.
  intros pt first second s; cbv zeta; split.
  - cbn; rewrite <- !app_assoc; reflexivity.
  - cbn [run fold_left handle].
    match goal with
    | |- storage_muted (simpleToggleMute_after_set pt ?f ?r ?s1) = _ =>
        destruct (simpleToggleMute_after_set_spec pt f r s1) as (_ & _ & _ & Hst)
    end.
    rewrite Hst; reflexivity.
Qed.

(** *** Reports that are not confirmed *)

(** X11.  A message on a session's channel that is neither a confirmed report
    nor "disconnected" changes nothing; sent one-shot it is at most
    acknowledged. *)
Theorem unconfirmed_report_ignored :
  forall pt port msg sender s,
    confirmed_value msg = None ->
    message msg <> "disconnected" ->
    handle pt (PortMessage port msg) s = s /\
    (handle pt (RuntimeMessage msg sender) s = s \/
     handle pt (RuntimeMessage msg sender) s = emit SendResponse s).
Proof.
  intros pt port msg sender s Hnone Hmsg.
  rewrite confirmed_value_muted in Hnone.
  apply String.eqb_neq in Hmsg.
  split.
  - cbn [handle]; destruct (port_listener_tab port); [|reflexivity].
    unfold port_onMessage; rewrite Hmsg.
    destruct (message msg =? "muted").
    + now destruct (truthy (finalState msg)).
    + destruct (message msg =? "unmuted"); [|reflexivity].
      now destruct (truthy (finalState msg)).
  - cbn [handle]; unfold runtime_onMessage.
    destruct sender; [|now left].
    destruct (message msg =? "content_script_loaded"); [now right|].
    destruct (message msg =? "muted"); cbn [orb].
    + destruct (truthy (finalState msg)); [discriminate|now right].
    + destruct (message msg =? "unmuted"); [|now left].
      destruct (truthy (finalState msg)); [discriminate|now right].
Qed.

Lemma unconfirmed_report_ignored_witness :
  confirmed_value (mkTabMessage "muted" (JBool false)) = None /\
  "muted" <> "disconnected" /\
  handle (fun _ => false)
         (PortMessage (meet_port 7 0) (mkTabMessage "muted" (JBool false)))
         one_session = one_session.
Proof.
  assert (Hmsg : "muted" <> "disconnected") by discriminate.
  split; [reflexivity|split; [exact Hmsg|]].
  exact (proj1 (unconfirmed_report_ignored (fun _ => false) (meet_port 7 0)
                  (mkTabMessage "muted" (JBool false)) None one_session
                  eq_refl Hmsg)).
Defined.

(** *** Installation *)

(** X12.  Installing asks to store [false] and sets the badge colour; once the
    write is done the preference is [false] whatever it was, the registry
    and the aggregate state are untouched, and the next toggle asks to
    store [true]. *)
Theorem install_resets_preference :
  forall pt fromIconClick s,
    let s1 := run pt [Installed; StorageSetDone (JBool false) None] s in
    trace (handle pt Installed s) =
      trace s ++ [StorageSet "muted" (JBool false) None;
                  SetBadgeBackgroundColor "#666666"] /\
    storage_muted s1 = JBool false /\
    activeMeetTabs s1 = activeMeetTabs s /\
    globalMuteState s1 = globalMuteState s /\
    handle pt (StorageGetDone (AfterGet fromIconClick)) s1 =
      emit (StorageSet "muted" (JBool true) (Some (AfterSet fromIconClick true)))
           s1.
Proof.
  intros pt fromIconClick s; cbn.
  rewrite <- app_assoc; repeat split.
Qed.

(** *** Timed repaints against confirmed reports *)

Lemma final_report_on_channel pt port tabId (reported : bool) fs s :
  port_listener_tab port = Some tabId ->
  truthy fs = true ->
  handle pt (PortMessage port
               (mkTabMessage (if reported then "muted" else "unmuted") fs)) s =
  mkBG (activeMeetTabs s) (mkGlobal reported true) (storage_muted s)
       (badge_of reported) (trace s ++ paint (badge_of reported)).
Proof.
  intros Hport Hfs; cbn [handle]; rewrite Hport.
  unfold port_onMessage.
  destruct reported; simpl; rewrite Hfs; rewrite updateAllTabsBadge_eq; reflexivity.
Qed.

(** X13.  The timer of the "no session" warning repaints without looking at
    the state: when a session connects and confirms its state before the
    timer fires, the timer still paints the disconnected badge over the
    confirmed one, and the aggregate state keeps saying otherwise. *)
Theorem warning_timer_overrides_confirmed_badge :
  forall pt tab port tabId (reported : bool) fs s,
    activeMeetTabs s = [] ->
    port_listener_tab port = Some tabId ->
    truthy fs = true ->
    let msg := mkTabMessage (if reported then "muted" else "unmuted") fs in
    let s3 := run pt [ActionClicked tab; Connect port; PortMessage port msg] s in
    let s4 := handle pt (TimerFired ClearWarning) s3 in
    badge s3 = badge_of reported /\
    badge s4 = disconnected_badge /\
    globalMuteState s4 = mkGlobal reported true /\
    activeMeetTabs s4 = [(tabId, port)].
Proof.
  intros pt tab port tabId reported fs s Hnil Hport Hfs; cbv zeta.
  cbn [run fold_left].
  rewrite (final_report_on_channel pt port tabId reported fs _ Hport Hfs).
  cbn [handle]; unfold clear_warning; rewrite setGlobalBadge_eq.
  cbn [badge globalMuteState activeMeetTabs].
  rewrite (onConnect_accepted port tabId _ Hport).
  unfold onClicked; rewrite Hnil; cbn [map_size length Z.of_nat Z.eqb].
  rewrite setGlobalBadge_eq; cbn.
  rewrite Hnil; auto.
Qed.

Lemma warning_timer_overrides_confirmed_badge_witness :
  activeMeetTabs (start JUndefined disconnected_badge) = [] /\
  port_listener_tab (meet_port 7 0) = Some 7 /\
  truthy (JBool true) = true /\
  badge
    (handle (fun _ => false) (TimerFired ClearWarning)
       (run (fun _ => false)
            [ActionClicked 1; Connect (meet_port 7 0);
             PortMessage (meet_port 7 0) (mkTabMessage "muted" (JBool true))]
            (start JUndefined disconnected_badge))) = disconnected_badge.
Proof.
  split; [reflexivity|split; [reflexivity|split; [reflexivity|]]].
  exact (proj1 (proj2 (warning_timer_overrides_confirmed_badge
                         (fun _ => false) 1 (meet_port 7 0) 7 true (JBool true)
                         (start JUndefined disconnected_badge)
                         eq_refl eq_refl eq_refl))).
Defined.

Lemma settle_to_broadcast pt fromIconClick s :
  settle pt (settle pt (simpleToggleMute fromIconClick s)) =
  simpleToggleMute_after_set pt fromIconClick (negb (truthy (storage_muted s)))
    (set_storage (JBool (negb (truthy (storage_muted s))))
       (emit (StorageSet "muted" (JBool (negb (truthy (storage_muted s))))
                (Some (AfterSet fromIconClick
                         (negb (truthy (storage_muted s))))))
          (emit (StorageGet "muted" (AfterGet fromIconClick)) s))).
Proof.
  unfold simpleToggleMute.
  rewrite settle_get; cbn [handle].
  unfold simpleToggleMute_after_get; cbn [storage_muted emit].
  now rewrite settle_set.
Qed.

(** X14.  The repaint that follows a toggle goes by the stored preference
    only: when a confirmed report arrives between the broadcast and the
    timer, the badge first shows the reported state and is then painted
    for the requested one, whatever was reported, while [isMuted] keeps
    the reported value. *)
Theorem safety_net_overrides_confirmed_report :
  forall pt port tabId (reported : bool) fs fromIconClick s,
    port_listener_tab port = Some tabId ->
    truthy fs = true ->
    let requested := negb (truthy (storage_muted s)) in
    let msg := mkTabMessage (if reported then "muted" else "unmuted") fs in
    let s2 := settle pt (settle pt (simpleToggleMute fromIconClick s)) in
    let s3 := handle pt (PortMessage port msg) s2 in
    let s5 := settle pt (handle pt (TimerFired Verification) s3) in
    badge s3 = badge_of reported /\
    badge s5 = badge_of requested /\
    globalMuteState s5 = mkGlobal reported true.
Proof.
  intros pt port tabId reported fs fromIconClick s Hport Hfs; cbv zeta.
  rewrite settle_to_broadcast.
  set (requested := negb (truthy (storage_muted s))).
  match goal with
  | |- context [simpleToggleMute_after_set pt ?f ?r ?s1] =>
      pose proof (simpleToggleMute_after_set_spec pt f r s1) as H;
      cbv zeta in H;
      remember (simpleToggleMute_after_set pt f r s1) as s2 eqn:Hs2
  end.
  clear Hs2; destruct H as (_ & _ & _ & Hst).
  cbn [storage_muted set_storage] in Hst.
  rewrite (final_report_on_channel pt port tabId reported fs s2 Hport Hfs).
  cbn [handle]; unfold verification; rewrite settle_get.
  cbn [handle storage_muted emit]; rewrite Hst.
  unfold verification_after_get; cbn [truthy].
  destruct requested; rewrite setGlobalBadge_eq; cbn; auto.
Qed.

Lemma safety_net_overrides_confirmed_report_witness :
  port_listener_tab (meet_port 7 0) = Some 7 /\
  truthy (JBool true) = true /\
  badge
    (settle (fun _ => false)
       (handle (fun _ => false) (TimerFired Verification)
          (handle (fun _ => false)
             (PortMessage (meet_port 7 0) (mkTabMessage "unmuted" (JBool true)))
             (settle (fun _ => false)
                (settle (fun _ => false)
                   (simpleToggleMute true one_session)))))) = muted_badge.
Proof.
  split; [reflexivity|split; [reflexivity|]].
  exact (proj1 (proj2 (safety_net_overrides_confirmed_report
                         (fun _ => false) (meet_port 7 0) 7 false (JBool true)
                         true one_session eq_refl eq_refl))).
Defined.

(** * Properties of the content script *)

Import Content.

Lemma reports_app tr1 tr2 : reports (tr1 ++ tr2) = reports tr1 ++ reports tr2.
Proof. apply flat_map_app. Qed.

Lemma sendMessageToBackground_reports pt m cs :
  reports (Content.trace (sendMessageToBackground pt m cs)) =
  reports (Content.trace cs) ++ [m] /\
  muted (sendMessageToBackground pt m cs) = muted cs.
Proof.
  unfold sendMessageToBackground.
  destruct (port cs); [destruct pt|]; simpl;
    rewrite ?reports_app; simpl; rewrite <- ?app_assoc; auto.
Qed.

Lemma updateMuted_value pt v button cs :
  reports (Content.trace (updateMuted pt (Some v) (Some button) cs)) =
  reports (Content.trace cs) ++ [final_report v] /\
  muted (updateMuted pt (Some v) (Some button) cs) = v.
Proof.
  unfold updateMuted.
  destruct (sendMessageToBackground_reports pt (final_report v) (set_muted v cs))
    as [Hr Hm].
  now rewrite Hr, Hm.
Qed.

(** *** C4: the final check wins *)

(** With the button gone from the page, a check throws before it does
    anything: no timer is set and nothing is reported. *)
Lemma checks_without_button pt quickCheckState cs :
  quick_check None cs = cs /\ final_check pt quickCheckState None cs = cs.
Proof. split; reflexivity. Qed.

(** C4.  A toggle command handled while the mute button is on the page,
    received on the channel or one-shot, presses the key and sets the
    50 ms timer; the quick check reads the attribute and only sets the
    200 ms timer; the final check reads the attribute again and sends
    "muted" when it reads "true" and "unmuted" otherwise, with
    [finalState] true.  That is the only message of the three steps,
    whatever the quick check read.  With "true" at the quick check and
    "false" at the final check the message is "unmuted". *)
Theorem C4_final_check_wins :
  forall pt ct m cs b0 b1 b2,
    let quick := data_is_muted b1 =? "true" in
    let final := data_is_muted b2 =? "true" in
    let toggle := Some (mkRequest (JStr "toggleMute") m) in
    let confirmed :=
      mkTabMessage (if final then "muted" else "unmuted") (JBool true) in
    let cs1 := Content.handle pt ct (Content.PortMessage toggle) (Some b0) cs in
    let cs2 := Content.handle pt ct (Content.TimerFired QuickCheck) (Some b1) cs1 in
    let cs3 := Content.handle pt ct (Content.TimerFired (FinalCheck quick))
                              (Some b2) cs2 in
    let os1 := Content.handle pt ct (Content.RuntimeMessage toggle) (Some b0) cs in
    let os2 := Content.handle pt ct (Content.TimerFired QuickCheck) (Some b1) os1 in
    let os3 := Content.handle pt ct (Content.TimerFired (FinalCheck quick))
                              (Some b2) os2 in
    Content.trace cs1 =
      Content.trace cs ++ [DispatchKeydown; Content.SetTimeout QuickCheck 50] /\
    Content.trace cs2 =
      Content.trace cs1 ++ [Content.SetTimeout (FinalCheck quick) 200] /\
    reports (Content.trace cs3) = reports (Content.trace cs) ++ [confirmed] /\
    muted cs3 = final /\
    Content.trace os1 =
      Content.trace cs ++
      [DispatchKeydown; Content.SetTimeout QuickCheck 50;
       Content.SendResponse
         (StateResponse
            (if data_is_muted b0 =? "true" then "unmuted" else "muted") true)] /\
    Content.trace os2 =
      Content.trace os1 ++ [Content.SetTimeout (FinalCheck quick) 200] /\
    reports (Content.trace os3) = reports (Content.trace cs) ++ [confirmed] /\
    muted os3 = final /\
    (data_is_muted b1 = "true" -> data_is_muted b2 = "false" ->
     reports (Content.trace cs3) =
       reports (Content.trace cs) ++ [mkTabMessage "unmuted" (JBool true)] /\
     reports (Content.trace os3) =
       reports (Content.trace cs) ++ [mkTabMessage "unmuted" (JBool true)]).
Proof.
  intros pt ct m cs b0 b1 b2; simpl.
  unfold quick_check, final_check; simpl.
  set (quick := data_is_muted b1 =? "true").
  set (final := data_is_muted b2 =? "true").
  set (flipped := set_muted (negb (data_is_muted b0 =? "true"))
                    (set_muted (data_is_muted b0 =? "true") cs)).
  destruct (updateMuted_value pt final b2
              (Content.emit (Content.SetTimeout (FinalCheck quick) 200)
                 (Content.emit (Content.SetTimeout QuickCheck 50)
                    (sendKeyboardCommand flipped))))
    as [Hr Hm].
  destruct (updateMuted_value pt final b2
              (Content.emit (Content.SetTimeout (FinalCheck quick) 200)
                 (Content.emit
                    (Content.SendResponse
                       (StateResponse
                          (if negb (data_is_muted b0 =? "true")
                           then "muted" else "unmuted") true))
                    (Content.emit (Content.SetTimeout QuickCheck 50)
                       (sendKeyboardCommand flipped)))))
    as [Hr' Hm'].
  simpl in Hr, Hr'.
  repeat (rewrite reports_app in Hr; simpl in Hr).
  repeat (rewrite reports_app in Hr'; simpl in Hr').
  rewrite ?app_nil_r in Hr; rewrite ?app_nil_r in Hr'.
  unfold final_report in Hr, Hr'.
  split; [now rewrite <- app_assoc|].
  split; [reflexivity|].
  split; [exact Hr|].
  split; [exact Hm|].
  split.
  { rewrite <- !app_assoc; simpl.
    now destruct (data_is_muted b0 =? "true"). }
  split; [reflexivity|].
  split; [exact Hr'|].
  split; [exact Hm'|].
  intros _ H2; subst quick final; rewrite H2 in *; split; [exact Hr|exact Hr'].
Qed.

(** The page shows unmuted, then muted at the quick check, then unmuted
    again at the final check: "unmuted" is what is sent. *)
Lemma C4_final_check_wins_witness :
  data_is_muted (mkButton 0 "true") = "true" /\
  data_is_muted (mkButton 0 "false") = "false" /\
  reports
    (Content.trace
       (Content.handle false false (Content.TimerFired (FinalCheck true))
          (Some (mkButton 0 "false"))
          (Content.handle false false (Content.TimerFired QuickCheck)
             (Some (mkButton 0 "true"))
             (Content.handle false false
                (Content.PortMessage
                   (Some (mkRequest (JStr "toggleMute") (JBool true))))
                (Some (mkButton 0 "false")) Content.start)))) =
  [mkTabMessage "unmuted" (JBool true)].
Proof.
  split; [reflexivity|split; [reflexivity|]].
  destruct (C4_final_check_wins false false (JBool true) Content.start
              (mkButton 0 "false") (mkButton 0 "true") (mkButton 0 "false"))
    as (_ & _ & _ & _ & _ & _ & _ & _ & Hrevert).
  exact (proj1 (Hrevert eq_refl eq_refl)).
Defined.

(** *** C10: the payload of the command is ignored *)

(** C10.  Two toggle commands that differ only in their [muted] field
    leave the content script in the same state, with the same calls made
    and the same timers set, and get the same response, over the channel
    and one-shot; so everything the script does afterwards, on any later
    events and pages, is the same too. *)
Theorem C10_payload_ignored :
  forall pt ct a m1 m2 dom cs,
    handleMessage pt (Some (mkRequest a m1)) dom cs =
    handleMessage pt (Some (mkRequest a m2)) dom cs /\
    (forall later,
        Content.run pt ct later
          (Content.handle pt ct (Content.PortMessage (Some (mkRequest a m1)))
                          dom cs) =
        Content.run pt ct later
          (Content.handle pt ct (Content.PortMessage (Some (mkRequest a m2)))
                          dom cs)) /\
    (forall later,
        Content.run pt ct later
          (Content.handle pt ct (Content.RuntimeMessage (Some (mkRequest a m1)))
                          dom cs) =
        Content.run pt ct later
          (Content.handle pt ct (Content.RuntimeMessage (Some (mkRequest a m2)))
                          dom cs)).
Proof.
  intros pt ct a m1 m2 dom cs.
  assert (H : handleMessage pt (Some (mkRequest a m1)) dom cs =
              handleMessage pt (Some (mkRequest a m2)) dom cs) by reflexivity.
  split; [exact H|].
  split; intros later; simpl; now rewrite H.
Qed.

(** ** Further properties of the content script *)

(** *** Sending *)


(** X15.  A message handed to [sendMessageToBackground] is sent exactly
    once and nothing but the trace changes: with no channel it goes
    one-shot; with a channel whose [postMessage] returns it goes over the
    channel and not one-shot; with a channel whose [postMessage] throws
    the error is logged and the message goes one-shot.  *)
Theorem message_sent_once :
  forall m flag channel observer waiting tr,
    sendMessageToBackground false m (mkCS flag None observer waiting tr) =
      mkCS flag None observer waiting
           (tr ++ [RuntimeSendMessage m (Some SendCatch)]) /\
    sendMessageToBackground true m (mkCS flag None observer waiting tr) =
      mkCS flag None observer waiting
           (tr ++ [RuntimeSendMessage m (Some SendCatch)]) /\
    sendMessageToBackground false m
        (mkCS flag (Some channel) observer waiting tr) =
      mkCS flag (Some channel) observer waiting (tr ++ [PortPostMessage m]) /\
    sendMessageToBackground true m
        (mkCS flag (Some channel) observer waiting tr) =
      mkCS flag (Some channel) observer waiting
           (tr ++ [ConsoleError "Error posting message via port:";
                   RuntimeSendMessage m (Some SendCatch)]) /\
    (forall pt cs,
        reports (trace (sendMessageToBackground pt m cs)) =
        reports (trace cs) ++ [m]).
Proof.
  intros m flag channel observer waiting tr.
  unfold sendMessageToBackground, emit; cbn.
  rewrite <- ?app_assoc; cbn.
  do 4 (split; [reflexivity|]).
  intros pt cs; apply sendMessageToBackground_reports.
Qed.


(** *** The attribute observer *)

(** X17.  With the button on the page, a mutation whose value differs from the
    cached flag is reported once, as "muted" for "true" and "unmuted"
    otherwise with [finalState] true, and becomes the cached flag; a
    mutation whose value equals it changes nothing, so the same value
    delivered again is not reported twice. *)
Theorem observer_reports_changes_once :
  forall pt ct attr button cs,
    let v := match attr with
             | Some a => a =? "true"
             | None => false
             end in
    let cs1 := handle pt ct (AttributeMutated attr) (Some button) cs in
    muted cs1 = v /\
    reports (trace cs1) =
      reports (trace cs) ++
      (if Bool.eqb v (muted cs) then []
       else [mkTabMessage (if v then "muted" else "unmuted") (JBool true)]) /\
    handle pt ct (AttributeMutated attr) (Some button) cs1 = cs1.
Proof.
  intros pt ct attr button cs; cbv zeta; cbn [handle].
  set (v := match attr with Some a => a =? "true" | None => false end).
  unfold isMuted_observer; fold v.
  destruct (Bool.eqb v (muted cs)) eqn:Hsame; cbn [negb].
  - apply Bool.eqb_prop in Hsame.
    rewrite Hsame, Bool.eqb_reflx, app_nil_r; auto.
  - destruct (updateMuted_value pt v button cs) as [Hr Hm].
    rewrite Hm, Hr, Bool.eqb_reflx; auto.
Qed.

(** X18.  After a toggle command the cached flag is already the negation of
    what the page showed, so the mutation by which the page honours the
    toggle is not reported by the observer. *)
Theorem honoured_toggle_keeps_observer_silent :
  forall pt ct m b0 attr dom cs,
    (attr =? "true") = negb (data_is_muted b0 =? "true") ->
    let cs1 := handle pt ct
                 (PortMessage (Some (mkRequest (JStr "toggleMute") m)))
                 (Some b0) cs in
    muted cs1 = negb (data_is_muted b0 =? "true") /\
    handle pt ct (AttributeMutated (Some attr)) dom cs1 = cs1.
Proof.
  intros pt ct m b0 attr dom cs Hattr; cbn.
  split; [reflexivity|].
  unfold isMuted_observer; cbn.
  now rewrite Hattr, Bool.eqb_reflx.
Qed.

Lemma honoured_toggle_keeps_observer_silent_witness :
  ("true" =? "true") = negb (data_is_muted (mkButton 0 "false") =? "true") /\
  muted
    (handle false false
       (PortMessage (Some (mkRequest (JStr "toggleMute") (JBool true))))
       (Some (mkButton 0 "false")) Content.start) = true.
Proof.
  split; [reflexivity|].
  exact (proj1 (honoured_toggle_keeps_observer_silent
                  false false (JBool true) (mkButton 0 "false") "true"
                  (Some (mkButton 0 "true")) Content.start eq_refl)).
Defined.

(** *** Waiting for the button *)

(** X19.  While the script waits for the button, asking again starts nothing:
    a second command that finds no button leaves the state of the first
    as it is. *)
Theorem waiting_is_exclusive :
  forall pt request request' dom cs,
    waitingForMuteButton (waitForMuteButton pt None cs) = true /\
    waitForMuteButton pt dom (waitForMuteButton pt None cs) =
      waitForMuteButton pt None cs /\
    fst (handleMessage pt request' None
           (fst (handleMessage pt request None cs))) =
      fst (handleMessage pt request None cs).
Proof.
  intros pt request request' dom cs.
  assert (Hwait : waitingForMuteButton (waitForMuteButton pt None cs) = true).
  { unfold waitForMuteButton.
    destruct (waitingForMuteButton cs) eqn:Hw; [exact Hw|reflexivity]. }
  assert (Hagain : forall d,
             waitForMuteButton pt d (waitForMuteButton pt None cs) =
             waitForMuteButton pt None cs).
  { intros d; unfold waitForMuteButton at 1; now rewrite Hwait. }
  split; [exact Hwait|split; [apply Hagain|]].
  cbn [handleMessage fst]; apply Hagain.
Qed.

Lemma geb_true_iff a b : (a >=? b)%Z = true <-> b <= a.
Proof. rewrite Z.geb_leb; apply Z.leb_le. Qed.

Lemma geb_false_iff a b : (a >=? b)%Z = false <-> a < b.
Proof. rewrite Z.geb_leb; apply Z.leb_gt. Qed.

Lemma polls_absent_settled pt n :
  forall timeout cs,
    reports (trace (polls_absent pt n timeout true cs)) = reports (trace cs) /\
    waitingForMuteButton (polls_absent pt n timeout true cs) =
      waitingForMuteButton cs /\
    muted (polls_absent pt n timeout true cs) = muted cs.
Proof.
  induction n as [|n IH]; intros timeout cs; cbn [polls_absent orb]; [auto|].
  destruct (IH (timeout + 100)
               (waitForContainerElement pt timeout true None cs))
    as (Hr & Hw & Hm).
  rewrite Hr, Hw, Hm; cbn.
  rewrite reports_app; cbn; rewrite app_nil_r; auto.
Qed.

Lemma polls_absent_pending pt n :
  forall timeout cs,
    timeout < MAX_TIME ->
    let gives_up := (timeout + 100 * Z.of_nat n >=? MAX_TIME)%Z in
    reports (trace (polls_absent pt n timeout false cs)) =
      reports (trace cs) ++ (if gives_up then [disconnected_notice] else []) /\
    waitingForMuteButton (polls_absent pt n timeout false cs) =
      (if gives_up then false else waitingForMuteButton cs) /\
    muted (polls_absent pt n timeout false cs) = muted cs.
Proof.
  unfold MAX_TIME.
  induction n as [|n IH]; intros timeout cs Hlt; cbv zeta.
  - cbn [polls_absent].
    replace (timeout + 100 * Z.of_nat 0 >=? 5000)%Z with false
      by (symmetry; apply geb_false_iff; lia).
    rewrite app_nil_r; auto.
  - cbn [polls_absent orb].
    unfold MAX_TIME.
    destruct (timeout + 100 >=? 5000)%Z eqn:Hrej.
    + (* this poll rejects the promise *)
      replace (timeout + 100 * Z.of_nat (S n) >=? 5000)%Z with true
        by (symmetry; apply geb_true_iff; apply geb_true_iff in Hrej; lia).
      destruct (polls_absent_settled pt n (timeout + 100)
                  (waitForContainerElement pt timeout false None cs))
        as (Hr & Hw & Hm).
      rewrite Hr, Hw, Hm.
      unfold waitForContainerElement, MAX_TIME; rewrite Hrej; cbn [orb].
      unfold wait_catch; cbn [waitingForMuteButton set_waiting muted trace].
      destruct (sendMessageToBackground_reports pt disconnected_notice
                  (emit (SetTimeout (WaitPoll (timeout + 100) true) 100) cs))
        as [Hsr Hsm].
      fold disconnected_notice.
      rewrite Hsr, Hsm; cbn.
      rewrite reports_app; cbn; rewrite app_nil_r; auto.
    + (* the promise stays pending *)
      assert (Hlt' : timeout + 100 < 5000)
        by (apply geb_false_iff in Hrej; lia).
      destruct (IH (timeout + 100)
                   (waitForContainerElement pt timeout false None cs) Hlt')
        as (Hr & Hw & Hm).
      replace (timeout + 100 + 100 * Z.of_nat n)
        with (timeout + 100 * Z.of_nat (S n)) in Hr, Hw by lia.
      rewrite Hr, Hw, Hm.
      unfold waitForContainerElement, MAX_TIME; rewrite Hrej; cbn.
      rewrite reports_app; cbn; rewrite app_nil_r; auto.
Qed.

(** X20.  Polling for a button that never appears.  Every poll that finds no
    button sets the timer of the next, timeout or not.  The "disconnected"
    notice is sent exactly once, by the fiftieth poll (the one whose
    counter reaches 5000), which also ends the waiting; before it nothing
    is sent.  A poll of a chain that has given up and then finds the
    button does nothing. *)
Theorem polling_gives_up_once :
  forall pt n button cs,
    waitingForMuteButton cs = false ->
    let cs' := polls_absent pt n 100 false (waitForMuteButton pt None cs) in
    reports (trace cs') =
      reports (trace cs) ++
      (if (49 <=? n)%nat then [disconnected_notice] else []) /\
    waitingForMuteButton cs' = negb (49 <=? n)%nat /\
    muted cs' = muted cs /\
    (forall timeout settled c,
        In (SetTimeout (WaitPoll (timeout + 100)
                          (settled || (timeout + 100 >=? MAX_TIME)%Z)) 100)
           (trace (waitForContainerElement pt timeout settled None c))) /\
    (forall timeout c,
        waitForContainerElement pt timeout true (Some button) c = c).
Proof.
  intros pt n button cs Hw; cbv zeta.
  destruct (polls_absent_pending pt n 100 (waitForMuteButton pt None cs))
    as (Hr & Hwait & Hm); [unfold MAX_TIME; lia|].
  assert (Hup : (100 + 100 * Z.of_nat n >=? MAX_TIME)%Z = (49 <=? n)%nat).
  { unfold MAX_TIME.
    destruct (Nat.leb_spec 49 n).
    - apply geb_true_iff; lia.
    - apply geb_false_iff; lia. }
  rewrite Hup in Hr, Hwait.
  assert (Hfirst :
            reports (trace (waitForMuteButton pt None cs)) = reports (trace cs) /\
            waitingForMuteButton (waitForMuteButton pt None cs) = true /\
            muted (waitForMuteButton pt None cs) = muted cs).
  { unfold waitForMuteButton; rewrite Hw; cbn.
    rewrite reports_app; cbn; rewrite app_nil_r; auto. }
  destruct Hfirst as (Hr1 & Hw1 & Hm1).
  rewrite Hr, Hwait, Hm, Hr1, Hw1, Hm1.
  split; [reflexivity|].
  split; [now destruct (49 <=? n)%nat|].
  split; [reflexivity|].
  split; [|reflexivity].
  - intros timeout settled c.
    unfold waitForContainerElement.
    destruct settled; [cbn; apply in_or_app; right; now left|].
    destruct (timeout + 100 >=? MAX_TIME)%Z; cbn [orb].
    + unfold wait_catch, sendMessageToBackground.
      destruct (port _); [destruct pt|]; cbn;
        rewrite <- ?app_assoc; apply in_or_app; right; now left.
    + cbn; apply in_or_app; right; now left.
Qed.

Lemma polling_gives_up_once_witness :
  waitingForMuteButton Content.start = false /\
  reports
    (trace (polls_absent false 49 100 false
              (waitForMuteButton false None Content.start))) =
  [disconnected_notice].
Proof.
  split; [reflexivity|].
  exact (proj1 (polling_gives_up_once false 49 (mkButton 0 "true")
                  Content.start eq_refl)).
Defined.



(** ** The two scripts together *)

(** X22.  The report of a final check, delivered to the background on a
    session's channel or one-shot from a tab, sets [isMuted] to the value
    of the attribute at that check, sets [hasMeetTab] and paints the
    badge of that value. *)
Theorem final_check_drives_badge :
  forall pt ct quick button cs bpt port tabId s,
    Background.port_listener_tab port = Some tabId ->
    let v := data_is_muted button =? "true" in
    exists m,
      reports (trace (handle pt ct (TimerFired (FinalCheck quick))
                             (Some button) cs)) =
        reports (trace cs) ++ [m] /\
      Background.globalMuteState
        (Background.handle bpt (Background.PortMessage port m) s) =
        mkGlobal v true /\
      Background.badge
        (Background.handle bpt (Background.PortMessage port m) s) =
        badge_of v /\
      Background.globalMuteState
        (Background.handle bpt (Background.RuntimeMessage m (Some tabId)) s) =
        mkGlobal v true /\
      Background.badge
        (Background.handle bpt (Background.RuntimeMessage m (Some tabId)) s) =
        badge_of v.
Proof.
  intros pt ct quick button cs bpt port tabId s Hport; cbv zeta.
  exists (final_report (data_is_muted button =? "true")).
  split.
  - cbn [handle]; unfold final_check; cbn [isMuted].
    apply updateMuted_value.
  - cbn [Background.handle]; rewrite Hport.
    unfold Background.port_onMessage, Background.runtime_onMessage.
    destruct (data_is_muted button =? "true"); cbn; auto.
Qed.

Lemma final_check_drives_badge_witness :
  Background.port_listener_tab (meet_port 7 0) = Some 7 /\
  Background.badge
    (Background.handle (fun _ => false)
       (Background.PortMessage (meet_port 7 0) (final_report true))
       one_session) = muted_badge.
Proof.
  split; [reflexivity|].
  destruct (final_check_drives_badge false false false (mkButton 0 "true")
              Content.start (fun _ => false) (meet_port 7 0) 7 one_session
              eq_refl) as (m & Hm & _ & Hb & _).
  cbn in Hm; injection Hm as <-.
  exact Hb.
Defined.

(** X23.  The "disconnected" notice the content script sends one-shot when the
    page unloads has no branch in the one-shot listener of the
    background: it changes nothing there, so the session stays
    registered until its channel disconnects or its tab is removed. *)
Theorem unload_notice_ignored :
  forall pt ct dom cs bpt sender s,
    trace (handle pt ct BeforeUnload dom cs) =
      trace cs ++ [RuntimeSendMessage disconnected_notice None] /\
    Background.handle bpt (Background.RuntimeMessage disconnected_notice sender)
                      s = s.
Proof.
  intros pt ct dom cs bpt sender s; split; [reflexivity|].
  now destruct sender.
Qed.
